(** * opentrack [logic/pipeline.cpp]: the pose pipeline, embedded and verified

    The file follows [pipeline.cpp] function by function: the arithmetic the
    code performs on [double], the small fixed-size vectors and matrices, the
    atomic flag word [bits], the relative-translation engine [reltrans], and
    the tick function [pipeline::logic] with the scheduler loop of
    [pipeline::run].

    Arithmetic.  The code computes on IEEE binary64 values.  Every function is
    embedded once, over an interface [Arith] listing the operations the code
    uses, and read at two instances:
    - [float_arith]: Rocq's primitive binary64 floats, bit-exact and
      executable (concrete runs are checked on it);
    - [real_arith]: exact real numbers, the usual idealisation of [double]
      without rounding, overflow or NaN (algebraic and order facts are proved
      on it). *)

From Stdlib Require Import ZArith Bool List Lia Floats Reals Lra.
Import ListNotations.

Set Implicit Arguments.

(* ===================================================================== *)
(** ** The arithmetic of [double] *)
(* ===================================================================== *)

(** The operations of [<cmath>] and of the language that [pipeline.cpp]
    applies to [double] values. *)
Class Arith (D : Type) : Type := {
  d_of_Z   : Z -> D;            (* conversion of an integer literal / [int] *)
  dadd     : D -> D -> D;
  dsub     : D -> D -> D;
  dmul     : D -> D -> D;
  ddiv     : D -> D -> D;
  dneg     : D -> D;
  fabs     : D -> D;            (* std::fabs *)
  fmod     : D -> D -> D;       (* std::fmod *)
  copysign : D -> D -> D;       (* std::copysign *)
  dltb     : D -> D -> bool;    (* x < y *)
  deqb     : D -> D -> bool;    (* x == y *)
  fp_nan_or_inf : D -> bool;    (* fpclassify in {FP_NAN, FP_INFINITE} *)
  M_PI     : D
}.

Declare Scope dbl_scope.
Delimit Scope dbl_scope with dbl.
Infix "+" := dadd : dbl_scope.
Infix "-" := dsub : dbl_scope.
Infix "*" := dmul : dbl_scope.
Infix "/" := ddiv : dbl_scope.
Notation "- x" := (dneg x) : dbl_scope.
Infix "<?" := dltb : dbl_scope.
Infix "=?" := deqb : dbl_scope.

Section ArithDerived.
Context {D : Type} `{Arith D}.

(** [x > y] is [y < x], also on NaN. *)
Definition dgtb (x y : D) : bool := dltb y x.
(** [x != y]. *)
Definition dneb (x y : D) : bool := negb (deqb x y).
(** A decimal literal [n / 10^k]: its binary64 value is the correctly
    rounded quotient, which is what the division of the two exactly
    representable integers returns. *)
Definition d_lit (n : Z) (pow10 : Z) : D := ddiv (d_of_Z n) (d_of_Z pow10).
(** Conversion of a [bool] operand in a product ([x * !flag]). *)
Definition d_of_bool (b : bool) : D := if b then d_of_Z 1 else d_of_Z 0.

(** [static constexpr double r2d = 180. / M_PI], [d2r = M_PI / 180.] *)
Definition r2d : D := ddiv (d_of_Z 180) M_PI.
Definition d2r : D := ddiv M_PI (d_of_Z 180).

(** Modelled from the spec: [clamp] of [compat/math.hpp], which is not in
    the source tree; "otherwise clamp to [-180, 180]". *)
Definition clamp (x lo hi : D) : D :=
    if dltb hi x then hi else if dltb x lo then lo else x.
End ArithDerived.

(** *** Instance 1: binary64 *)

Module F64.
Definition of_Z (z : Z) : float :=
    SF2Prim (binary_normalize prec emax z 0 false).

(** [std::fmod]: the remainder of the truncated quotient, computed exactly
    on the integer significands (the result is always representable). *)
Definition fmod (x y : float) : float :=
    match Prim2SF x, Prim2SF y with
    | S754_nan, _ | _, S754_nan => nan
    | S754_infinity _, _ => nan
    | _, S754_zero _ => nan
    | S754_zero _, _ => x
    | S754_finite _ _ _, S754_infinity _ => x
    | S754_finite sx mx ex, S754_finite _ my ey =>
        let e := Z.min ex ey in
        let r := Z.rem (Z.pos mx * 2 ^ (ex - e)) (Z.pos my * 2 ^ (ey - e)) in
        let v := SF2Prim (binary_normalize prec emax r e false) in
        if sx then PrimFloat.opp v else v
    end.

Definition sign_bit (x : float) : bool :=
    match Prim2SF x with
    | S754_zero s | S754_infinity s | S754_finite s _ _ => s
    | S754_nan => false
    end.

Definition copysign (mag sgn : float) : float :=
    if sign_bit sgn then PrimFloat.opp (PrimFloat.abs mag) else PrimFloat.abs mag.

Definition nan_or_inf (x : float) : bool :=
    match PrimFloat.classify x with
    | NaN | PInf | NInf => true
    | _ => false
    end.
End F64.

#[export] Instance float_arith : Arith float := {|
  d_of_Z := F64.of_Z;
  dadd := PrimFloat.add;
  dsub := PrimFloat.sub;
  dmul := PrimFloat.mul;
  ddiv := PrimFloat.div;
  dneg := PrimFloat.opp;
  fabs := PrimFloat.abs;
  fmod := F64.fmod;
  copysign := F64.copysign;
  dltb := PrimFloat.ltb;
  deqb := PrimFloat.eqb;
  fp_nan_or_inf := F64.nan_or_inf;
  M_PI := 0x1.921fb54442d18p+1%float
|}.

(** *** Instance 2: exact reals *)

Module RealD.
Local Open Scope R_scope.

(** Truncation toward zero. *)
Definition trunc (x : R) : Z :=
    if Rle_dec 0 x then Int_part x else (- Int_part (- x))%Z.

Definition fmod (x y : R) : R := x - y * IZR (trunc (x / y)).

Definition copysign (mag sgn : R) : R :=
    if Rlt_dec sgn 0 then - Rabs mag else Rabs mag.

Definition ltb (x y : R) : bool := if Rlt_dec x y then true else false.
Definition eqb (x y : R) : bool := if Req_dec_T x y then true else false.
End RealD.

#[export] Instance real_arith : Arith R := {|
  d_of_Z := IZR;
  dadd := Rplus;
  dsub := Rminus;
  dmul := Rmult;
  ddiv := Rdiv;
  dneg := Ropp;
  fabs := Rabs;
  fmod := RealD.fmod;
  copysign := RealD.copysign;
  dltb := RealD.ltb;
  deqb := RealD.eqb;
  fp_nan_or_inf := fun _ => false;
  M_PI := PI
|}.

(* ===================================================================== *)
(** ** Fixed-size vectors and matrices ([Pose], [euler_t], [rmat]) *)
(* ===================================================================== *)

(** The channel indices of a pose: [enum Axis { TX, TY, TZ, Yaw, Pitch, Roll }]. *)
Inductive Axis : Set := TX | TY | TZ | Yaw | Pitch | Roll.

Definition Z_of_axis (a : Axis) : Z :=
  match a with TX => 0 | TY => 1 | TZ => 2 | Yaw => 3 | Pitch => 4 | Roll => 5 end.

(** An [int] used as an index: [None] is an access outside [0..5]. *)
Definition axis_of_Z (k : Z) : option Axis :=
  match k with
  | 0 => Some TX | 1 => Some TY | 2 => Some TZ
  | 3 => Some Yaw | 4 => Some Pitch | 5 => Some Roll
  | _ => None
  end%Z.

Definition all_axes : list Axis := [TX; TY; TZ; Yaw; Pitch; Roll].

(** The rotation channel that sits three places after a translation channel
    ([i + 3] in the loops over [i < 3]). *)
Definition rot_of (a : Axis) : Axis :=
  match a with TX => Yaw | TY => Pitch | TZ => Roll | other => other end.

Record vec6 (A : Type) : Type := Vec6 {
  c_tx : A; c_ty : A; c_tz : A; c_yaw : A; c_pitch : A; c_roll : A
}.

Definition at6 {A} (v : vec6 A) (i : Axis) : A :=
  match i with
  | TX => c_tx v | TY => c_ty v | TZ => c_tz v
  | Yaw => c_yaw v | Pitch => c_pitch v | Roll => c_roll v
  end.

Definition upd6 {A} (v : vec6 A) (i : Axis) (a : A) : vec6 A :=
  match i with
  | TX => Vec6 a (c_ty v) (c_tz v) (c_yaw v) (c_pitch v) (c_roll v)
  | TY => Vec6 (c_tx v) a (c_tz v) (c_yaw v) (c_pitch v) (c_roll v)
  | TZ => Vec6 (c_tx v) (c_ty v) a (c_yaw v) (c_pitch v) (c_roll v)
  | Yaw => Vec6 (c_tx v) (c_ty v) (c_tz v) a (c_pitch v) (c_roll v)
  | Pitch => Vec6 (c_tx v) (c_ty v) (c_tz v) (c_yaw v) a (c_roll v)
  | Roll => Vec6 (c_tx v) (c_ty v) (c_tz v) (c_yaw v) (c_pitch v) a
  end.

(** A loop [for (i = 0; i < 6; i++) v(i) = f(i)] whose iterations are
    independent of each other. *)
Definition tab6 {A} (f : Axis -> A) : vec6 A :=
  Vec6 (f TX) (f TY) (f TZ) (f Yaw) (f Pitch) (f Roll).

(** A checked read [v(k)]: [None] when [k] is not a valid index. *)
Definition read6 {A} (v : vec6 A) (k : Z) : option A :=
  option_map (at6 v) (axis_of_Z k).

Definition vec6_bool := vec6 bool.

Record vec3 (A : Type) : Type := Vec3 { e0 : A; e1 : A; e2 : A }.
Definition vec3_bool := vec3 bool.

Record mat33 (A : Type) : Type := Mat33 {
  row0 : vec3 A; row1 : vec3 A; row2 : vec3 A
}.

(** [Pose] is a column of six [double]s, [euler_t] of three, [rmat] a 3x3
    matrix. *)
Definition Pose (D : Type) : Type := vec6 D.
Definition euler_t (D : Type) : Type := vec3 D.
Definition rmat (D : Type) : Type := mat33 D.

Section Linear.
Context {D : Type} `{Arith D}.
Local Open Scope dbl_scope.

Definition zero_pose : Pose D := tab6 (fun _ => d_of_Z 0).
Definition zero3 : euler_t D := Vec3 (d_of_Z 0) (d_of_Z 0) (d_of_Z 0).

(** [euler_t(&value[0])] and [euler_t(&value[Yaw])] *)
Definition pose_pos (p : Pose D) : euler_t D := Vec3 (c_tx p) (c_ty p) (c_tz p).
Definition pose_rot (p : Pose D) : euler_t D := Vec3 (c_yaw p) (c_pitch p) (c_roll p).

Definition vmap3 (f : D -> D) (v : euler_t D) : euler_t D :=
    Vec3 (f (e0 v)) (f (e1 v)) (f (e2 v)).
Definition vzip3 (f : D -> D -> D) (a b : euler_t D) : euler_t D :=
    Vec3 (f (e0 a) (e0 b)) (f (e1 a) (e1 b)) (f (e2 a) (e2 b)).
Definition vadd3 := vzip3 dadd.
Definition vsub3 := vzip3 dsub.
(** [v * k] and [k * v] *)
Definition vscale3 (v : euler_t D) (k : D) : euler_t D := vmap3 (fun x => x * k) v.
Definition scalev3 (k : D) (v : euler_t D) : euler_t D := vmap3 (fun x => k * x) v.

(** Modelled from the spec: the matrix operations of
    [compat/simple-mat.hpp], which is not in the source tree ("composition
    is matrix multiplication"); each entry is accumulated from 0, left to
    right. *)
Definition dot3 (a b : euler_t D) : D :=
    ((d_of_Z 0 + e0 a * e0 b) + e1 a * e1 b) + e2 a * e2 b.
Definition mat_vec (M : rmat D) (v : euler_t D) : euler_t D :=
    Vec3 (dot3 (row0 M) v) (dot3 (row1 M) v) (dot3 (row2 M) v).
Definition col (M : rmat D) (j : vec3 D -> D) : euler_t D :=
    Vec3 (j (row0 M)) (j (row1 M)) (j (row2 M)).
Definition transpose (M : rmat D) : rmat D :=
    Mat33 (col M (@e0 D)) (col M (@e1 D)) (col M (@e2 D)).
Definition mat_mul (M N : rmat D) : rmat D :=
    let c0 := col N (@e0 D) in
    let c1 := col N (@e1 D) in
    let c2 := col N (@e2 D) in
    Mat33 (Vec3 (dot3 (row0 M) c0) (dot3 (row0 M) c1) (dot3 (row0 M) c2))
          (Vec3 (dot3 (row1 M) c0) (dot3 (row1 M) c1) (dot3 (row1 M) c2))
          (Vec3 (dot3 (row2 M) c0) (dot3 (row2 M) c1) (dot3 (row2 M) c2)).
Definition eye : rmat D :=
    Mat33 (Vec3 (d_of_Z 1) (d_of_Z 0) (d_of_Z 0))
          (Vec3 (d_of_Z 0) (d_of_Z 1) (d_of_Z 0))
          (Vec3 (d_of_Z 0) (d_of_Z 0) (d_of_Z 1)).

(** [is_nan(const dmat<u,w>&)]: some entry classifies as NaN or infinite. *)
Definition is_nan (p : Pose D) : bool :=
    existsb (fun i => fp_nan_or_inf (at6 p i)) all_axes.
End Linear.

(** The conversions of [compat/euler.hpp] between Euler angles and rotation
    matrices are not in the source tree; the code below takes them as
    parameters. *)
Record EulerConv (D : Type) : Type := {
  euler_to_rmat : vec3 D -> mat33 D;
  rmat_to_euler : mat33 D -> vec3 D
}.

(* ===================================================================== *)
(** ** [struct bits]: the flag word *)
(* ===================================================================== *)

Module bits.
Local Open Scope Z_scope.

Inductive flags : Set := f_center | f_enabled_h | f_enabled_p | f_zero.

(** Modelled from the spec: the enumerator values of [bits::flags] are
    declared in [pipeline.hpp], which is not in the source tree; "4
    independent named bits packed in one atomically-accessed integer". *)
Definition mask (f : flags) : Z :=
    match f with
    | f_center => 1 | f_enabled_h => 2 | f_enabled_p => 4 | f_zero => 8
    end.

(** [unsigned] is 32 bits wide. *)
Definition u32 (z : Z) : Z := z mod 2 ^ 32.
Definition unot (x : Z) : Z := u32 (Z.lnot x).

(** The word a [set] attempt offers to the compare-exchange:
    [(b_ & ~flag) | (flag * val)]. *)
Definition set_word (flag : Z) (val : bool) (b_ : Z) : Z :=
    u32 (Z.lor (Z.land b_ (unot flag)) (u32 (flag * Z.b2z val))).
(** [b_ ^ flag] *)
Definition negate_word (flag : Z) (b_ : Z) : Z := u32 (Z.lxor b_ flag).

(** What happens to one attempt of the retry loop between its load of [b]
    and its [compare_exchange_weak]: nothing, a spurious failure of the
    weak exchange, or a store by another thread. *)
Inductive attempt : Set :=
  | Spurious
  | Store (w : Z).

(** The retry loop [for (;;) { b_ = b; if (cas(b_, f b_)) break; }] run
    against a schedule of failed attempts; the result is the content of
    [b] when the loop exits.  A store of the very value that was loaded
    lets the exchange succeed. *)
Fixpoint cas_loop (f : Z -> Z) (sched : list attempt) (b : Z) : Z :=
    match sched with
    | [] => f b
    | Spurious :: rest => cas_loop f rest b
    | Store w :: rest => if w =? b then f b else cas_loop f rest w
    end.

Definition set_sched (sched : list attempt) (flag : Z) (val : bool) (b : Z) : Z :=
    cas_loop (set_word flag val) sched b.
Definition negate_sched (sched : list attempt) (flag : Z) (b : Z) : Z :=
    cas_loop (negate_word flag) sched b.

(** The operations as one thread sees them when no other thread
    interferes and the exchange succeeds at once. *)
Definition set (flag : flags) (val : bool) (b : Z) : Z :=
    set_sched [] (mask flag) val b.
Definition negate (flag : flags) (b : Z) : Z :=
    negate_sched [] (mask flag) b.

(** [!!(b & flag)] *)
Definition get_mask (flag : Z) (b : Z) : bool := negb (Z.land b flag =? 0).
Definition get (flag : flags) (b : Z) : bool := get_mask (mask flag) b.

(** [bits::bits() : b(0u)] *)
Definition init : Z :=
    set f_zero false (set f_enabled_h true (set f_enabled_p true (set f_center true 0))).
End bits.

(* ===================================================================== *)
(** ** [class reltrans]: relative translation compensation *)
(* ===================================================================== *)

Module reltrans.
(** [enum reltrans_state] *)
Inductive reltrans_state : Set :=
  | reltrans_disabled | reltrans_enabled | reltrans_non_center.

(** The members of [reltrans].  [interp_timer] is read through the
    [dt] argument of [apply_pipeline]. *)
Record t (D : Type) : Type := Mk {
    interp_pos : vec3 D;
    cur : bool;
    in_zone : bool
  }.

Section Code.
Context {D : Type} `{Arith D}.
Variable conv : EulerConv D.
Local Open Scope dbl_scope.

(** [reltrans::rotate] (lines 38-64); [enum { tb_Z, tb_X, tb_Y }]. *)
Definition rotate (R : rmat D) (in_ : euler_t D) (disable : vec3_bool) : euler_t D :=
      let ret := mat_vec R (Vec3 (e2 in_) (- e0 in_) (- e1 in_)) in
      let tb_Z := e0 ret in
      let tb_X := e1 ret in
      let tb_Y := e2 ret in
      Vec3 (if e0 disable then e0 in_ else - tb_X)
           (if e1 disable then e1 in_ else - tb_Y)
           (if e2 disable then e2 in_ else tb_Z).

(** Lines 73-83: the value of [tcomp_in_zone_]. *)
Definition tcomp_in_zone (state : reltrans_state) (value : Pose D) : bool :=
      match state with
      | reltrans_non_center =>
          let yaw_in_zone := fabs (c_yaw value) <? d_of_Z 50 in
          let pitch_in_zone := fabs (c_pitch value) <? d_of_Z 40 in
          negb (yaw_in_zone && pitch_in_zone)
      | _ => true
      end.

(** Lines 85-92: [cur] after the zone test. *)
Definition cur_after_zone (st : t D) (tcomp_in_zone_ : bool) : bool :=
      if negb (cur st) && negb (Bool.eqb (in_zone st) tcomp_in_zone_)
      then true else cur st.

(** Lines 70 and 96-103: [rel] before the interpolation. *)
Definition rotated_rel (in_zone_ : bool) (value : Pose D) (disable : vec6_bool)
      : euler_t D :=
      let rel := pose_pos value in
      if in_zone_ then
        let R := euler_to_rmat conv
                   (Vec3 (c_yaw value * d2r * d_of_bool (negb (c_yaw disable)))
                         (c_pitch value * d2r * d_of_bool (negb (c_pitch disable)))
                         (c_roll value * d2r * d_of_bool (negb (c_roll disable)))) in
        rotate R rel (Vec3 (c_tx disable) (c_ty disable) (c_tz disable))
      else rel.

Definition RC : D := d_lit 1 10.
Definition eps : D := d_lit 5 100.

(** Line 119: [fabs(tmp(0)) + fabs(tmp(0)) + fabs(tmp(0))]. *)
Definition delta_of (tmp : euler_t D) : D :=
      fabs (e0 tmp) + fabs (e0 tmp) + fabs (e0 tmp).

(** Lines 105-132: the interpolation step; returns the new [rel],
    [interp_pos] and [cur]. *)
Definition interpolate (dt : D) (cur_ : bool) (rel interp_pos_ : euler_t D)
      : euler_t D * euler_t D * bool :=
      if cur_ then
        let alpha := dt / (dt + RC) in
        let interp_pos' :=
          vadd3 (vscale3 interp_pos_ (d_of_Z 1 - alpha)) (vscale3 rel alpha) in
        let tmp := vsub3 rel interp_pos' in
        let delta := delta_of tmp in
        (interp_pos', interp_pos', if delta <? eps then false else true)
      else (rel, rel, cur_).

(** [reltrans::apply_pipeline] (lines 66-143).  [dt] is what
    [interp_timer.elapsed_seconds()] returns at line 107. *)
Definition apply_pipeline (dt : D) (state : reltrans_state) (value : Pose D)
        (disable : vec6_bool) (st : t D) : Pose D * t D :=
      match state with
      | reltrans_disabled => (value, Mk (interp_pos st) false false)
      | _ =>
          let tcomp_in_zone_ := tcomp_in_zone state value in
          let cur1 := cur_after_zone st tcomp_in_zone_ in
          let rel := rotated_rel tcomp_in_zone_ value disable in
          let '(rel', interp_pos', cur') := interpolate dt cur1 rel (interp_pos st) in
          (Vec6 (e0 rel') (e1 rel') (e2 rel') (c_yaw value) (c_pitch value) (c_roll value),
           Mk interp_pos' cur' tcomp_in_zone_)
      end.

(** [reltrans::apply_neck] (lines 145-160). *)
Definition apply_neck (value : Pose D) (enable : bool) (nz : Z) : euler_t D :=
      if negb enable then zero3
      else if (nz =? 0)%Z then zero3
      else
        let R := euler_to_rmat conv (vscale3 (pose_rot value) d2r) in
        let neck := rotate R (Vec3 (d_of_Z 0) (d_of_Z 0) (d_of_Z nz))
                      (Vec3 false false false) in
        Vec3 (e0 neck) (e1 neck) (e2 neck - d_of_Z nz).
End Code.
End reltrans.

(* ===================================================================== *)
(** ** [class pipeline] *)
(* ===================================================================== *)

Module pipeline.
Import bits reltrans.

(** Per-axis options and curves of [Mappings]: [m(i).opts.src], [.invert],
    [.zero], [.altp], and the value functions of the two splines. *)
Record Opts (D : Type) : Type := {
    src : Z; invert : bool; zero : D; altp : bool
  }.
Record Map (D : Type) : Type := {
    opts : Opts D;
    spline_main : D -> D;
    spline_alt : D -> D
  }.

(** The settings [s] read by this file. *)
Record settings : Set := {
    center_at_startup : bool;
    neck_enable : bool;
    neck_z : Z;
    reltrans_mode : reltrans_state;
    reltrans_disable_src_yaw : bool;
    reltrans_disable_src_pitch : bool;
    reltrans_disable_src_roll : bool;
    reltrans_disable_tx : bool;
    reltrans_disable_ty : bool;
    reltrans_disable_tz : bool
  }.

(** What stays fixed over a run: mappings, settings, the Euler
    conversions and the constants [c_mult], [c_div] of [pipeline.hpp]. *)
Record config (D : Type) : Type := {
    m : vec6 (Map D);
    s : settings;
    conv : EulerConv D;
    c_mult : D;
    c_div : D
  }.

(** What the collaborators do during one tick: the tracker's sample and
    its answer to [center()], the filter (if one is loaded), the four
    event hooks, and the reading of [interp_timer]. *)
Record tick_io (D : Type) : Type := {
    tracker_data : vec6 D;
    tracker_center : bool;
    pFilter : option (vec6 D -> vec6 D);
    ev_raw : vec6 D -> vec6 D;
    ev_before_filter : vec6 D -> vec6 D;
    ev_before_mapping : vec6 D -> vec6 D;
    ev_finished : vec6 D -> vec6 D;
    interp_dt : D
  }.

(** Calls that leave the pipeline, in the order they are made.
    [CenterPose] is not a call: it marks that the centre was assigned
    (lines 279-292). *)
Inductive event (D : Type) : Type :=
  | TrackerCenter
  | FilterCenter
  | CenterPose (own_center_logic : bool)
  | NanMsg
  | ProtocolPose (value : vec6 D)
  | BacklogMsg (backlog_ms : Z)
  | Sleep (sleep_time_ms : Z).
Arguments TrackerCenter {D}.
Arguments FilterCenter {D}.
Arguments CenterPose {D} _.
Arguments NanMsg {D}.
Arguments BacklogMsg {D} _.
Arguments Sleep {D} _.

(** [struct state_ { rmat D rot_center, rotation; }] *)
Record rot_state (D : Type) : Type := {
    rotation : mat33 D;
    rot_center : mat33 D
  }.

(** The members of a [pipeline] object, the function-local [static] of
    [emit_nan_check_msg], and the calls made so far (newest first). *)
Record state (D : Type) : Type := St {
    b : Z;
    tracking_started : bool;
    newpose : vec6 D;
    output_pose : vec6 D;
    raw_6dof : vec6 D;
    scaled_rotation : rot_state D;
    real_rotation : rot_state D;
    t_center : vec3 D;
    rel : reltrans.t D;
    tracking_active : vec6 (bool * bool);
    backlog_time : Z;
    nan_msg_emitted : bool;
    trace : list (event D)
  }.

(** The tick runs in a state monad whose computations may leave through
    [goto nan]. *)
Inductive outcome (A : Type) : Type :=
  | Ok (a : A)
  | GotoNan.
Arguments GotoNan {A}.

Definition M (D A : Type) : Type := state D -> outcome A * state D.

Definition ret {D A} (a : A) : M D A := fun st => (Ok a, st).
Definition bind {D A B} (c : M D A) (k : A -> M D B) : M D B :=
    fun st => match c st with
              | (Ok a, st') => k a st'
              | (GotoNan, st') => (GotoNan, st')
              end.
Definition goto_nan {D A} : M D A := fun st => (GotoNan, st).
Definition read {D A} (f : state D -> A) : M D A := fun st => (Ok (f st), st).
Definition modify {D} (f : state D -> state D) : M D unit :=
    fun st => (Ok tt, f st).

Declare Scope pipe_scope.
Delimit Scope pipe_scope with pipe.
Notation "x <- c ;; k" := (bind c (fun x => k))
    (at level 61, c at next level, right associativity) : pipe_scope.
Notation "' p <- c ;; k" := (bind c (fun x => let p := x in k))
    (at level 61, p pattern, c at next level, right associativity) : pipe_scope.
Notation "c ;; k" := (bind c (fun _ => k))
    (at level 61, right associativity) : pipe_scope.

Section Setters.
Context {D : Type}.
Definition with_b (v : Z) (st : state D) : state D :=
      St v (tracking_started st) (newpose st) (output_pose st) (raw_6dof st)
         (scaled_rotation st) (real_rotation st) (t_center st) (rel st)
         (tracking_active st) (backlog_time st) (nan_msg_emitted st) (trace st).
Definition with_tracking_started (v : bool) (st : state D) : state D :=
      St (b st) v (newpose st) (output_pose st) (raw_6dof st)
         (scaled_rotation st) (real_rotation st) (t_center st) (rel st)
         (tracking_active st) (backlog_time st) (nan_msg_emitted st) (trace st).
Definition with_newpose (v : vec6 D) (st : state D) : state D :=
      St (b st) (tracking_started st) v (output_pose st) (raw_6dof st)
         (scaled_rotation st) (real_rotation st) (t_center st) (rel st)
         (tracking_active st) (backlog_time st) (nan_msg_emitted st) (trace st).
Definition with_output (value raw : vec6 D) (st : state D) : state D :=
      St (b st) (tracking_started st) (newpose st) value raw
         (scaled_rotation st) (real_rotation st) (t_center st) (rel st)
         (tracking_active st) (backlog_time st) (nan_msg_emitted st) (trace st).
Definition with_rotations (sc re : mat33 D) (st : state D) : state D :=
      St (b st) (tracking_started st) (newpose st) (output_pose st) (raw_6dof st)
         {| rotation := sc; rot_center := rot_center (scaled_rotation st) |}
         {| rotation := re; rot_center := rot_center (real_rotation st) |}
         (t_center st) (rel st)
         (tracking_active st) (backlog_time st) (nan_msg_emitted st) (trace st).
Definition with_center (sc re : mat33 D) (tc : vec3 D) (st : state D) : state D :=
      St (b st) (tracking_started st) (newpose st) (output_pose st) (raw_6dof st)
         {| rotation := rotation (scaled_rotation st); rot_center := sc |}
         {| rotation := rotation (real_rotation st); rot_center := re |}
         tc (rel st)
         (tracking_active st) (backlog_time st) (nan_msg_emitted st) (trace st).
Definition with_rel (v : reltrans.t D) (st : state D) : state D :=
      St (b st) (tracking_started st) (newpose st) (output_pose st) (raw_6dof st)
         (scaled_rotation st) (real_rotation st) (t_center st) v
         (tracking_active st) (backlog_time st) (nan_msg_emitted st) (trace st).
Definition with_tracking_active (v : vec6 (bool * bool)) (st : state D) : state D :=
      St (b st) (tracking_started st) (newpose st) (output_pose st) (raw_6dof st)
         (scaled_rotation st) (real_rotation st) (t_center st) (rel st)
         v (backlog_time st) (nan_msg_emitted st) (trace st).
Definition with_backlog_time (v : Z) (st : state D) : state D :=
      St (b st) (tracking_started st) (newpose st) (output_pose st) (raw_6dof st)
         (scaled_rotation st) (real_rotation st) (t_center st) (rel st)
         (tracking_active st) v (nan_msg_emitted st) (trace st).
Definition with_nan_msg_emitted (v : bool) (st : state D) : state D :=
      St (b st) (tracking_started st) (newpose st) (output_pose st) (raw_6dof st)
         (scaled_rotation st) (real_rotation st) (t_center st) (rel st)
         (tracking_active st) (backlog_time st) v (trace st).
Definition emit (e : event D) (st : state D) : state D :=
      St (b st) (tracking_started st) (newpose st) (output_pose st) (raw_6dof st)
         (scaled_rotation st) (real_rotation st) (t_center st) (rel st)
         (tracking_active st) (backlog_time st) (nan_msg_emitted st) (e :: trace st).
End Setters.

Section Code.
Context {D : Type} `{Arith D}.
Variable cfg : config D.
Local Open Scope dbl_scope.
Local Open Scope pipe_scope.

(** A member function that cannot leave through [goto nan], run inside
    the tick. *)
Definition lift {A} (f : state D -> A * state D) : M D A :=
      fun st => let (a, st') := f st in (Ok a, st').

(** The accessors of the flag word, on the pipeline's own [b]
    ([pipeline] derives from [bits]). *)
Definition get (flag : flags) (st : state D) : bool := bits.get flag (b st).
Definition set (flag : flags) (val : bool) (st : state D) : state D :=
      with_b (bits.set flag val (b st)) st.
Definition negate (flag : flags) (st : state D) : state D :=
      with_b (bits.negate flag (b st)) st.

(** [pipeline::map] (lines 176-183). *)
Definition map (pos : D) (i : Axis) (st : state D) : D * state D :=
      let axis := at6 (m cfg) i in
      let altp_ := (pos <? d_of_Z 0) && altp (opts axis) in
      let st := with_tracking_active
                  (upd6 (tracking_active st) i (negb altp_, altp_)) st in
      (if altp_ then spline_alt axis pos else spline_main axis pos, st).

(** A loop [for (i in axes) value(i) = map(value(i), m(i))]. *)
Fixpoint map_axes (axes : list Axis) (value : Pose D) (st : state D)
      : Pose D * state D :=
      match axes with
      | [] => (value, st)
      | i :: rest =>
          let (v, st) := map (at6 value i) i st in
          map_axes rest (upd6 value i v) st
      end.

(** [nan_check_] over the arguments of one [nan_check(...)]. *)
Definition nan_check_ (vals : list (Pose D)) : bool := existsb is_nan vals.

(** [emit_nan_check_msg] (lines 214-223).
    Modelled from the spec: the macro [once_only] of the compat headers
    is not in the source tree; "emit a one-time diagnostic (suppressed
    on repeat)". *)
Definition emit_nan_check_msg (st : state D) : state D :=
      if nan_msg_emitted st then st
      else emit NanMsg (with_nan_msg_emitted true st).

(** [maybe_nan] (lines 225-235). *)
Definition maybe_nan (vals : list (Pose D)) (st : state D) : bool * state D :=
      if nan_check_ vals then (true, emit_nan_check_msg st) else (false, st).

(** The macro [nan_check] (lines 245-250). *)
Definition nan_check (vals : list (Pose D)) : M D unit :=
      failed <- lift (maybe_nan vals) ;;
      if failed then goto_nan else ret tt.

(** The test of line 257 over the six channels. *)
Definition some_channel_nonzero (p : Pose D) : bool :=
      existsb (fun i => dneb (fabs (at6 p i)) (d_of_Z 0)) all_axes.

(** [maybe_enable_center_on_tracking_started] (lines 252-266). *)
Definition maybe_enable_center_on_tracking_started (st : state D) : state D :=
      if negb (tracking_started st) then
        let st := if some_channel_nonzero (newpose st)
                  then with_tracking_started true st else st in
        if tracking_started st && center_at_startup (s cfg)
        then set f_center true st else st
      else st.

(** [maybe_set_center_pose] (lines 268-294). *)
Definition maybe_set_center_pose (filter_loaded : bool) (value : Pose D)
        (own_center_logic : bool) (st : state D) : state D :=
      let tmp := scalev3 d2r (pose_rot value) in
      let st := with_rotations (euler_to_rmat (conv cfg) (scalev3 (c_div cfg) tmp))
                               (euler_to_rmat (conv cfg) tmp) st in
      if get f_center st then
        let st := if filter_loaded then emit FilterCenter st else st in
        let st := emit (CenterPose own_center_logic) st in
        if own_center_logic then with_center eye eye zero3 st
        else with_center (transpose (rotation (scaled_rotation st)))
                         (transpose (rotation (real_rotation st)))
                         (pose_pos value) st
      else st.

(** [clamp_value] (lines 296-315). *)
Definition clamp_rot (v : D) : D :=
      let x := fmod v (d_of_Z 360) in
      if dgtb (fabs x - d_lit 1 100) (d_of_Z 180)
      then fmod (x + copysign (d_of_Z 180) x) (d_of_Z 360) - copysign (d_of_Z 180) x
      else clamp x (d_of_Z (-180)) (d_of_Z 180).

Definition clamp_value (value : Pose D) : Pose D :=
      Vec6 (c_tx value) (c_ty value) (c_tz value)
           (clamp_rot (c_yaw value)) (clamp_rot (c_pitch value))
           (clamp_rot (c_roll value)).

Definition invert_if (flag : bool) (x : D) : D := if flag then - x else x.

(** [apply_center] (lines 317-343). *)
Definition apply_center (st : state D) (value : Pose D) : Pose D :=
      let rotation_ := mat_mul (rotation (scaled_rotation st))
                               (rot_center (scaled_rotation st)) in
      let pos := vsub3 (pose_pos value) (t_center st) in
      let rot := scalev3 (r2d * c_mult cfg) (rmat_to_euler (conv cfg) rotation_) in
      let pos := rotate (rot_center (real_rotation st)) pos (Vec3 false false false) in
      let inv i := invert (opts (at6 (m cfg) i)) in
      Vec6 (invert_if (inv TX) (e0 pos))
           (invert_if (inv TY) (e1 pos))
           (invert_if (inv TZ) (e2 pos))
           (invert_if (inv Yaw) (e0 rot))
           (invert_if (inv Pitch) (e1 rot))
           (invert_if (inv Roll) (e2 rot)).

(** [get_selected_axis_value] (lines 345-365).  The read [newpose(k)] is
    checked: the result is [None] if some read falls outside the six
    channels. *)
Definition selected_channel (newpose_ : Pose D) (i : Axis) : option D :=
      let k := src (opts (at6 (m cfg) i)) in
      if (k <? 0)%Z || (k >=? 6)%Z then Some (d_of_Z 0) else read6 newpose_ k.

Definition selected_disabled (i : Axis) : bool :=
      (src (opts (at6 (m cfg) i)) =? 6)%Z.

Definition get_selected_axis_value (newpose_ : Pose D)
      : option (Pose D * Pose D * vec6_bool) :=
      match selected_channel newpose_ TX, selected_channel newpose_ TY,
            selected_channel newpose_ TZ, selected_channel newpose_ Yaw,
            selected_channel newpose_ Pitch, selected_channel newpose_ Roll with
      | Some v0, Some v1, Some v2, Some v3, Some v4, Some v5 =>
          Some (newpose_, Vec6 v0 v1 v2 v3 v4 v5, tab6 selected_disabled)
      | _, _, _, _, _, _ => None
      end.

(** [maybe_apply_filter] (lines 367-376). *)
Definition maybe_apply_filter (filter : option (Pose D -> Pose D)) (value : Pose D)
      : Pose D :=
      match filter with
      | Some f => f value
      | None => value
      end.

(** [apply_zero_pos] (lines 378-385). *)
Definition apply_zero_pos (value : Pose D) : Pose D :=
      tab6 (fun i =>
        let o := opts (at6 (m cfg) i) in
        at6 value i + zero o * d_of_Z (if invert o then -1 else 1)).

(** The [disable] argument built at lines 392-397. *)
Definition reltrans_disable : vec6_bool :=
      Vec6 (reltrans_disable_src_yaw (s cfg))
           (reltrans_disable_src_pitch (s cfg))
           (reltrans_disable_src_roll (s cfg))
           (reltrans_disable_tx (s cfg))
           (reltrans_disable_ty (s cfg))
           (reltrans_disable_tz (s cfg)).

(** [apply_reltrans] (lines 387-408). *)
Definition apply_reltrans (dt : D) (value : Pose D) (disabled : vec6_bool)
        (st : state D) : Pose D * state D :=
      let neck := apply_neck (conv cfg) value (neck_enable (s cfg)) (- neck_z (s cfg)) in
      let r := apply_pipeline (conv cfg) dt (reltrans_mode (s cfg)) value
                 reltrans_disable (rel st) in
      let value := fst r in
      let st := with_rel (snd r) st in
      let value := Vec6 (c_tx value + e0 neck) (c_ty value + e1 neck)
                        (c_tz value + e2 neck)
                        (c_yaw value) (c_pitch value) (c_roll value) in
      (tab6 (fun k => if at6 disabled k then d_of_Z 0 else at6 value k), st).

(** [if (libs.pFilter)] *)
Definition filter_loaded (io : tick_io D) : bool :=
      match pFilter io with Some _ => true | None => false end.

(** The result of [get_selected_axis_value] as [logic] uses it; the
    checked reads never fail, so the second branch is never taken. *)
Definition selected_axis_value (newpose_ : Pose D) : Pose D * Pose D * vec6_bool :=
      match get_selected_axis_value newpose_ with
      | Some r => r
      | None => (newpose_, zero_pose, tab6 (fun _ => false))
      end.

(** Lines 419-420: [center_ordered] and [own_center_logic]; the tracker
    is asked only when centering is ordered. *)
Definition ask_own_center_logic (io : tick_io D) (st : state D) : bool * state D :=
      let center_ordered := get f_center st && tracking_started st in
      if center_ordered then (tracker_center io, emit TrackerCenter st)
      else (false, st).

(** Lines 431-433: the sample is stored unless tracking is disabled. *)
Definition store_newpose (tmp : Pose D) (st : state D) : state D :=
      if xorb (get f_enabled_p st) (negb (get f_enabled_h st))
      then with_newpose tmp st else st.

(** [logic] from its start to [goto ok] (lines 415-471): the pose
    [value] and the snapshot [raw]. *)
Definition logic_body (io : tick_io D) : M D (Pose D * Pose D) :=
      own_center_logic <- lift (ask_own_center_logic io) ;;
      let tmp := tracker_data io in
      nan_check [tmp] ;;
      let tmp := ev_raw io tmp in
      modify (store_newpose tmp) ;;
      newpose_ <- read (@newpose D) ;;
      let raw := fst (fst (selected_axis_value newpose_)) in
      let value := snd (fst (selected_axis_value newpose_)) in
      let disabled := snd (selected_axis_value newpose_) in
      let value := clamp_value value in
      modify maybe_enable_center_on_tracking_started ;;
      modify (maybe_set_center_pose (filter_loaded io) value own_center_logic) ;;
      st <- read (fun st => st) ;;
      let value := apply_center st value in
      let value := ev_before_filter io value in
      let value := maybe_apply_filter (pFilter io) value in
      nan_check [value] ;;
      let value := ev_before_mapping io value in
      value <- lift (map_axes [Yaw; Pitch; Roll] value) ;;
      value <- lift (apply_reltrans (interp_dt io) value disabled) ;;
      value <- lift (map_axes [TX; TY; TZ] value) ;;
      nan_check [value] ;;
      ret (value, raw).

(** The block at label [nan] (lines 473-483). *)
Definition nan_fallback (st : state D) : Pose D * Pose D * state D :=
      let value := output_pose st in
      let raw := raw_6dof st in
      let st := snd (map_axes all_axes (raw_6dof st) st) in
      (value, raw, st).

(** From label [ok] to the end of [logic] (lines 485-505). *)
Definition finish (io : tick_io D) (value raw : Pose D) (st : state D) : state D :=
      let st := set f_center false st in
      let value := if get f_zero st then zero_pose else value in
      let value := apply_zero_pos value in
      let value := ev_finished io value in
      let st := emit (ProtocolPose value) st in
      with_output value raw st.

(** [pipeline::logic] (lines 410-506). *)
Definition logic (io : tick_io D) (st : state D) : state D :=
      match logic_body io st with
      | (Ok (value, raw), st1) => finish io value raw st1
      | (GotoNan, st1) =>
          let '(value, raw, st2) := nan_fallback st1 in
          finish io value raw st2
      end.

(** Modelled from the spec: the duration types of [time_units]
    ([compat/time.hpp]) are not in the source tree; durations are integer
    counts of nanoseconds, [ms(4)] and [ms(10)] are 4 and 10
    milliseconds, [secs_(3)] is 3 seconds, and [time_cast<ms>] keeps the
    whole milliseconds (truncation toward zero). *)
Definition ns_of_ms (x : Z) : Z := (x * 1000000)%Z.
Definition ns_of_secs (x : Z) : Z := (x * 1000000000)%Z.
Definition time_cast_ms (x : Z) : Z := Z.quot x 1000000.
Definition const_sleep_ms : Z := ns_of_ms 4.

(** [clamp] on durations. *)
Definition clamp_ns (x lo hi : Z) : Z :=
      if (hi <? x)%Z then hi else if (x <? lo)%Z then lo else x.

(** Lines 542-547: the overflow test on the backlog. *)
Definition backlog_overflow (backlog : Z) : bool :=
      (backlog >? ns_of_secs 3)%Z || (backlog <? ns_of_secs (-3))%Z.

(** Lines 549-552: the backlog after adding this iteration's excess,
    and the argument of [portable::sleep]. *)
Definition sleep_time_ms (backlog : Z) : Z :=
      time_cast_ms (clamp_ns (const_sleep_ms - backlog) 0 (ns_of_ms 10)).

(** One iteration of the loop of [pipeline::run] (lines 537-560);
    [elapsed_nsecs] is the reading of the timer [t]. *)
Definition run_iteration (io : tick_io D) (elapsed_nsecs : Z) (st : state D)
      : state D :=
      let st := logic io st in
      let st := if backlog_overflow (backlog_time st)
                then with_backlog_time 0
                       (emit (BacklogMsg (time_cast_ms (backlog_time st))) st)
                else st in
      let st := with_backlog_time
                  (backlog_time st + (elapsed_nsecs - const_sleep_ms))%Z st in
      emit (Sleep (sleep_time_ms (backlog_time st))) st.

(** The loop of [pipeline::run], for the iterations made before the
    interruption is requested. *)
Fixpoint run_loop (its : list (tick_io D * Z)) (st : state D) : state D :=
      match its with
      | [] => st
      | (io, elapsed_nsecs) :: rest => run_loop rest (run_iteration io elapsed_nsecs st)
      end.

(** [pipeline::run] (lines 508-577); the logger's header is not
    modelled. *)
Definition run (its : list (tick_io D * Z)) (st : state D) : state D :=
      let st := run_loop its st in
      let st := emit (ProtocolPose zero_pose) st in
      with_tracking_active (tab6 (fun _ => (false, false))) st.

(** Consecutive ticks without the scheduler. *)
Fixpoint ticks (ios : list (tick_io D)) (st : state D) : state D :=
      match ios with
      | [] => st
      | io :: rest => ticks rest (logic io st)
      end.

(** [raw_and_mapped_pose] (lines 579-588): [(mapped, raw)]. *)
Definition raw_and_mapped_pose (st : state D) : Pose D * Pose D :=
      (output_pose st, raw_6dof st).

(** Lines 590-596, as state transformers. *)
Definition set_center (st : state D) : state D := set f_center true st.
Definition set_enabled (value : bool) (st : state D) : state D :=
      set f_enabled_h value st.
Definition set_zero (value : bool) (st : state D) : state D :=
      set f_zero value st.
Definition toggle_zero (st : state D) : state D := negate f_zero st.
Definition toggle_enabled (st : state D) : state D := negate f_enabled_p st.
End Code.

(** Modelled from the spec: the member initialisers of [pipeline.hpp] are
    not in the source tree; "initialized once at pipeline construction
    (centering=true, user-enabled=true, hardware-enabled=true,
    zero=false)", poses and vectors zero, centre frames the identity,
    tracking not started, backlog zero. *)
Definition fresh {D : Type} `{Arith D} : state D :=
    {| b := bits.init;
       tracking_started := false;
       newpose := zero_pose;
       output_pose := zero_pose;
       raw_6dof := zero_pose;
       scaled_rotation := {| rotation := eye; rot_center := eye |};
       real_rotation := {| rotation := eye; rot_center := eye |};
       t_center := zero3;
       rel := reltrans.Mk zero3 false false;
       tracking_active := tab6 (fun _ => (false, false));
       backlog_time := 0%Z;
       nan_msg_emitted := false;
       trace := [] |}.
End pipeline.

(* ===================================================================== *)
(** ** Notions used in the statements *)
(* ===================================================================== *)

(** The bit position of each flag. *)
Definition bit_index (f : bits.flags) : Z :=
  match f with
  | bits.f_center => 0 | bits.f_enabled_h => 1
  | bits.f_enabled_p => 2 | bits.f_zero => 3
  end%Z.

(** The word that the successful exchange of a retry loop replaced. *)
Fixpoint seen (sched : list bits.attempt) (b : Z) : Z :=
  match sched with
  | [] => b
  | bits.Spurious :: rest => seen rest b
  | bits.Store w :: rest => if (w =? b)%Z then b else seen rest w
  end.

Module Trace.
Import pipeline.

Definition is_nan_msg {D} (e : event D) : bool :=
    match e with NanMsg => true | _ => false end.
Definition is_center_pose {D} (e : event D) : bool :=
    match e with CenterPose _ => true | _ => false end.
Definition is_tracker_center {D} (e : event D) : bool :=
    match e with TrackerCenter => true | _ => false end.
Definition is_filter_center {D} (e : event D) : bool :=
    match e with FilterCenter => true | _ => false end.
Definition is_protocol_pose {D} (e : event D) : bool :=
    match e with ProtocolPose _ => true | _ => false end.
Definition is_sleep {D} (e : event D) : bool :=
    match e with Sleep _ => true | _ => false end.

(** How many events of a kind a trace holds. *)
Definition count {D} (p : event D -> bool) (tr : list (event D)) : nat :=
    length (filter p tr).
End Trace.

(** The tick seen stage by stage: the state when each [nan_check] is
    reached, and the pose it tests. *)
Module Tick.
Import bits pipeline.

Section Views.
Context {D : Type} `{Arith D}.
Variable cfg : config D.
Variable io : tick_io D.

Definition own_center_logic (st : state D) : bool :=
      fst (ask_own_center_logic io st).
(** At the first check (line 428). *)
Definition st_asked (st : state D) : state D :=
      snd (ask_own_center_logic io st).
(** After the sample is stored (line 434). *)
Definition st_stored (st : state D) : state D :=
      store_newpose (ev_raw io (tracker_data io)) (st_asked st).
Definition selected (st : state D) : Pose D * Pose D * vec6_bool :=
      selected_axis_value cfg (newpose (st_stored st)).
Definition raw (st : state D) : Pose D := fst (fst (selected st)).
Definition clamped (st : state D) : Pose D :=
      clamp_value (snd (fst (selected st))).
(** After the latch (line 442). *)
Definition st_latched (st : state D) : state D :=
      maybe_enable_center_on_tracking_started cfg (st_stored st).
(** At the second check (line 451). *)
Definition st_centered (st : state D) : state D :=
      maybe_set_center_pose cfg (filter_loaded io) (clamped st)
        (own_center_logic st) (st_latched st).
Definition filtered (st : state D) : Pose D :=
      maybe_apply_filter (pFilter io)
        (ev_before_filter io (apply_center cfg (st_centered st) (clamped st))).
(** At the third check (line 468). *)
Definition mapped (st : state D) : Pose D * state D :=
      let (v1, s1) := map_axes cfg [Yaw; Pitch; Roll]
                        (ev_before_mapping io (filtered st)) (st_centered st) in
      let (v2, s2) := apply_reltrans cfg (interp_dt io) v1 (snd (selected st)) s1 in
      map_axes cfg [TX; TY; TZ] v2 s2.

(** Which of the three checks, if any, sends the tick to [nan]. *)
Definition nan_at_input : bool := is_nan (tracker_data io).
Definition nan_at_filter (st : state D) : bool := is_nan (filtered st).
Definition nan_at_output (st : state D) : bool := is_nan (fst (mapped st)).
Definition nan_detected (st : state D) : bool :=
      nan_at_input || nan_at_filter st || nan_at_output st.

(** The state in which the tick reaches [nan] or [ok]. *)
Definition st_checked (st : state D) : state D :=
      if nan_at_input then emit_nan_check_msg (st_asked st)
      else if nan_at_filter st then emit_nan_check_msg (st_centered st)
      else if nan_at_output st then emit_nan_check_msg (snd (mapped st))
      else snd (mapped st).

(** The pose that reaches label [ok], and the pose the tick publishes. *)
Definition carried (st : state D) : Pose D :=
      if nan_detected st then output_pose st else fst (mapped st).
Definition published (st : state D) : Pose D :=
      ev_finished io
        (apply_zero_pos cfg
           (if pipeline.get f_zero (pipeline.set f_center false (st_checked st))
            then zero_pose else carried st)).

(** The calls of one tick, newest first. *)
Definition tracker_events (st : state D) : list (event D) :=
      if pipeline.get f_center st && tracking_started st then [TrackerCenter] else [].
Definition center_events (st : state D) : list (event D) :=
      if pipeline.get f_center (st_latched st)
      then CenterPose (own_center_logic st) ::
           (if filter_loaded io then [FilterCenter] else [])
      else [].
Definition nan_events (st : state D) : list (event D) :=
      if nan_detected st && negb (nan_msg_emitted st) then [NanMsg] else [].
End Views.

(** What a stage of the tick leaves alone. *)
Definition same_data {D} (st st' : state D) : Prop :=
    output_pose st' = output_pose st /\ raw_6dof st' = raw_6dof st /\
    backlog_time st' = backlog_time st /\ nan_msg_emitted st' = nan_msg_emitted st.
Definition same_control {D} (st st' : state D) : Prop :=
    b st' = b st /\ tracking_started st' = tracking_started st /\
    newpose st' = newpose st.

(** Consecutive ticks that all end at [nan]. *)
Fixpoint all_nan {D} `{Arith D} (cfg : config D) (ios : list (tick_io D))
      (st : state D) : bool :=
    match ios with
    | [] => true
    | io :: rest => nan_detected cfg io st && all_nan cfg rest (logic cfg io st)
    end.


End Tick.

(** Concrete configurations for runs on binary64. *)
Module Demo.
Import bits reltrans pipeline.
Local Open Scope float_scope.

(** The Euler conversions at the zero rotation, where the true ones give
    the identity matrix and zero angles; the runs below keep all rotation
    channels at zero. *)
Definition flat_conv : EulerConv float :=
    {| euler_to_rmat := fun _ => eye; rmat_to_euler := fun _ => zero3 |}.

(** An axis read from source channel [k], identity curves, offset [z]. *)
Definition axis_map (k : Z) (z : float) : Map float :=
    {| opts := {| src := k; invert := false; zero := z; altp := false |};
       spline_main := fun x => x;
       spline_alt := fun x => x |}.

Definition plain_settings : settings :=
    {| center_at_startup := true; neck_enable := false; neck_z := 0%Z;
       reltrans_mode := reltrans_disabled;
       reltrans_disable_src_yaw := false; reltrans_disable_src_pitch := false;
       reltrans_disable_src_roll := false; reltrans_disable_tx := false;
       reltrans_disable_ty := false; reltrans_disable_tz := false |}.

(** Straight mapping, no offsets. *)
Definition cfg0 : config float :=
    {| m := Vec6 (axis_map 0 0) (axis_map 1 0) (axis_map 2 0)
                 (axis_map 3 0) (axis_map 4 0) (axis_map 5 0);
       s := plain_settings; conv := flat_conv; c_mult := 16; c_div := 0.0625 |}.

(** A tick with sample [p], a filter that does nothing, idle hooks. *)
Definition sample (p : Pose float) : tick_io float :=
    {| tracker_data := p; tracker_center := false;
       pFilter := Some (fun x => x);
       ev_raw := fun x => x; ev_before_filter := fun x => x;
       ev_before_mapping := fun x => x; ev_finished := fun x => x;
       interp_dt := 0.00390625 |}.

Definition at_rest : Pose float := Vec6 0 0 0 0 0 0.
Definition moved (x : float) : Pose float := Vec6 x 0 0 0 0 0.
Definition broken : Pose float := Vec6 nan 0 0 0 0 0.

(** Two good ticks: the pipeline is centred at [x = 1] and publishes
    [x = 2]. *)
Definition tracking : state float :=
    ticks cfg0 [sample (moved 1); sample (moved 3)] fresh.
End Demo.

(** Concrete configurations for the exact-real reading. *)
Module DemoR.
Import bits reltrans pipeline.
Local Open Scope R_scope.

(** A conversion that turns about one axis only: orthonormal for every
    angle, and zero angles for the identity. *)
Definition yaw_conv : EulerConv R :=
    {| euler_to_rmat := fun e =>
         Mat33 (Vec3 (cos (e0 e)) (- sin (e0 e)) 0)
               (Vec3 (sin (e0 e)) (cos (e0 e)) 0)
               (Vec3 0 0 1);
       rmat_to_euler := fun M => Vec3 (e0 (row1 M)) (e0 (row2 M)) (e1 (row2 M)) |}.

Definition axis_map (k : Z) : Map R :=
    {| opts := {| src := k; invert := false; zero := 0; altp := false |};
       spline_main := fun x => x;
       spline_alt := fun x => x |}.

Definition cfg0 : config R :=
    {| m := Vec6 (axis_map 0) (axis_map 1) (axis_map 2)
                 (axis_map 3) (axis_map 4) (axis_map 5);
       s := Demo.plain_settings; conv := yaw_conv; c_mult := 16; c_div := / 16 |}.

Definition some_pose : Pose R := Vec6 1 2 3 30 0 0.
End DemoR.

(** Notions for the further properties. *)
Module More.
Import bits reltrans pipeline.

(** The reference frame of centering: both centre matrices and the centre
    translation. *)
Definition center_frame {D} (st : state D) : mat33 D * mat33 D * vec3 D :=
(rot_center (scaled_rotation st), rot_center (real_rotation st), t_center st).

(** The members that only the stages between the first check and [ok]
    write. *)
Definition worker_state {D} (st : state D)
  : vec6 D * bool * rot_state D * rot_state D * vec3 D * reltrans.t D :=
(newpose st, tracking_started st, scaled_rotation st, real_rotation st,
 t_center st, pipeline.rel st).

(** A [sleep] call with an argument between 0 and 10. *)
Definition sleep_in_bounds {D} (e : event D) : Prop :=
match e with
| Sleep n => (0 <= n <= 10)%Z
| _ => True
end.

(** [n] calls of [apply_pipeline] with the same arguments. *)
Fixpoint repeat_pipeline {D} `{Arith D} (cv : EulerConv D) (dt : D)
  (mode : reltrans_state) (value : Pose D) (disable : vec6_bool) (n : nat)
  (st : reltrans.t D) : reltrans.t D :=
match n with
| O => st
| S k => snd (apply_pipeline cv dt mode value disable
                (repeat_pipeline cv dt mode value disable k st))
end.

(** A configuration with a zero offset of 1 on the first axis. *)
Definition cfg_offset : config float :=
{| m := Vec6 (Demo.axis_map 0 1) (Demo.axis_map 1 0) (Demo.axis_map 2 0)
             (Demo.axis_map 3 0) (Demo.axis_map 4 0) (Demo.axis_map 5 0);
   s := Demo.plain_settings; conv := Demo.flat_conv;
   c_mult := 16%float; c_div := 0.0625%float |}.

(** A tick whose tracker centres on its own. *)
Definition own_centering (p : Pose float) : tick_io float :=
{| tracker_data := p; tracker_center := true;
   pFilter := None;
   ev_raw := fun x => x; ev_before_filter := fun x => x;
   ev_before_mapping := fun x => x; ev_finished := fun x => x;
   interp_dt := 0.00390625%float |}.

(** A tick over the reals with the all-zero sample, no filter, idle hooks. *)
Definition rest_tick : tick_io R :=
{| tracker_data := zero_pose; tracker_center := false;
   pFilter := None;
   ev_raw := fun x => x; ev_before_filter := fun x => x;
   ev_before_mapping := fun x => x; ev_finished := fun x => x;
   interp_dt := (1 / 250)%R |}.
End More.

(* ===================================================================== *)
(** ** Facts about the flag word *)
(* ===================================================================== *)

Section BitsFacts.
Import bits.
Local Open Scope Z_scope.

Lemma mask_pow2 f : mask f = 2 ^ bit_index f.
Proof. destruct f; reflexivity. Qed.

Lemma bit_index_range f : 0 <= bit_index f < 32.
Proof. destruct f; cbn; lia. Qed.

Lemma bit_index_inj f g : bit_index f = bit_index g -> f = g.
Proof. destruct f, g; cbn; intros; congruence || lia. Qed.

(** Testing a one-bit mask reads that bit. *)
Lemma get_mask_pow2 i w : 0 <= i -> get_mask (2 ^ i) w = Z.testbit w i.
Proof.
    intros Hi. unfold get_mask.
    assert (E : Z.land w (2 ^ i) = if Z.testbit w i then 2 ^ i else 0).
    { apply Z.bits_inj'. intros k Hk.
      rewrite Z.land_spec, Z.pow2_bits_eqb by lia.
      destruct (Z.eqb_spec i k) as [->|Hne].
      - destruct (Z.testbit w k) eqn:E; cbn.
        + rewrite Z.pow2_bits_eqb, Z.eqb_refl by lia. reflexivity.
        + now rewrite Z.bits_0.
      - rewrite andb_false_r. destruct (Z.testbit w i).
        + rewrite Z.pow2_bits_eqb by lia. symmetry. now apply Z.eqb_neq.
        + now rewrite Z.bits_0. }
    rewrite E. destruct (Z.testbit w i); [|reflexivity].
    assert (0 < 2 ^ i) by (apply Z.pow_pos_nonneg; lia).
    destruct (Z.eqb_spec (2 ^ i) 0); [lia|reflexivity].
Qed.

Lemma u32_bits z k : 0 <= k < 32 -> Z.testbit (u32 z) k = Z.testbit z k.
Proof. intros. unfold u32. apply Z.mod_pow2_bits_low. lia. Qed.

Lemma u32_range z : 0 <= u32 z < 2 ^ 32.
Proof. unfold u32. apply Z.mod_pos_bound. lia. Qed.

Lemma set_word_bits i v w k :
    0 <= i < 32 -> 0 <= k < 32 ->
    Z.testbit (set_word (2 ^ i) v w) k = if k =? i then v else Z.testbit w k.
Proof.
    intros Hi Hk. unfold set_word, unot.
    rewrite u32_bits, Z.lor_spec, Z.land_spec, !u32_bits, Z.lnot_spec by lia.
    rewrite Z.pow2_bits_eqb by lia.
    assert (Ev : Z.testbit (2 ^ i * Z.b2z v) k = (k =? i) && v).
    { destruct v; cbn [Z.b2z].
      - rewrite Z.mul_1_r, Z.pow2_bits_eqb, andb_true_r by lia. apply Z.eqb_sym.
      - rewrite Z.mul_0_r, Z.bits_0. now rewrite andb_false_r. }
    rewrite Ev, (Z.eqb_sym i k).
    destruct (k =? i), v, (Z.testbit w k); reflexivity.
Qed.

Lemma negate_word_bits i w k :
    0 <= i < 32 -> 0 <= k < 32 ->
    Z.testbit (negate_word (2 ^ i) w) k = xorb (Z.testbit w k) (k =? i).
Proof.
    intros Hi Hk. unfold negate_word.
    rewrite u32_bits, Z.lxor_spec, Z.pow2_bits_eqb by lia.
    now rewrite (Z.eqb_sym i k).
Qed.

(** The loop ends with the update applied to the word it last loaded. *)
Lemma cas_loop_seen f sched w : cas_loop f sched w = f (seen sched w).
Proof.
    revert w. induction sched as [|[|v] rest IH]; intros w; cbn.
    - reflexivity.
    - apply IH.
    - destruct (v =? w); [reflexivity | apply IH].
Qed.

Lemma seen_spurious n w : seen (repeat Spurious n) w = w.
Proof. induction n as [|n IH]; cbn; [reflexivity | exact IH]. Qed.

Lemma cas_loop_spurious f n w : cas_loop f (repeat Spurious n) w = f w.
Proof. now rewrite cas_loop_seen, seen_spurious. Qed.

Lemma get_testbit F w : get F w = Z.testbit w (bit_index F).
Proof.
    unfold get. rewrite mask_pow2. apply get_mask_pow2.
    pose proof (bit_index_range F). lia.
Qed.

Lemma get_set_same F v w : get F (set F v w) = v.
Proof.
    rewrite get_testbit. unfold set, set_sched. cbn [cas_loop]. rewrite mask_pow2.
    pose proof (bit_index_range F).
    rewrite set_word_bits by lia. now rewrite Z.eqb_refl.
Qed.

Lemma get_set_other F G v w : F <> G -> get G (set F v w) = get G w.
Proof.
    intros HFG. rewrite !get_testbit. unfold set, set_sched. cbn [cas_loop].
    rewrite mask_pow2.
    pose proof (bit_index_range F). pose proof (bit_index_range G).
    rewrite set_word_bits by lia.
    destruct (Z.eqb_spec (bit_index G) (bit_index F)) as [E|_]; [|reflexivity].
    apply bit_index_inj in E. congruence.
Qed.

Lemma get_negate_same F w : get F (negate F w) = negb (get F w).
Proof.
    rewrite !get_testbit. unfold negate, negate_sched. cbn [cas_loop]. rewrite mask_pow2.
    pose proof (bit_index_range F).
    rewrite negate_word_bits by lia. now rewrite Z.eqb_refl, xorb_true_r.
Qed.

Lemma get_negate_other F G w : F <> G -> get G (negate F w) = get G w.
Proof.
    intros HFG. rewrite !get_testbit. unfold negate, negate_sched. cbn [cas_loop].
    rewrite mask_pow2.
    pose proof (bit_index_range F). pose proof (bit_index_range G).
    rewrite negate_word_bits by lia.
    destruct (Z.eqb_spec (bit_index G) (bit_index F)) as [E|_]; [|apply xorb_false_r].
    apply bit_index_inj in E. congruence.
Qed.
End BitsFacts.

(** C8: for every flag word, every flag F and every other flag G, one
    [set(F, v)] or [negate(F)] (whatever number of spurious failures the
    weak exchange goes through) leaves bit G as it was; [get(F)] after
    [set(F, v)] is [v], so [set(F,true); set(F,false)] gives [false]; and
    [negate(F)] flips bit F. *)
Theorem flag_register_frame :
  forall (F G : bits.flags) (v : bool) (n : nat) (w : Z),
    F <> G ->
    let quiet := repeat bits.Spurious n in
    bits.get G (bits.set_sched quiet (bits.mask F) v w) = bits.get G w /\
    bits.get G (bits.negate_sched quiet (bits.mask F) w) = bits.get G w /\
    bits.get F (bits.set_sched quiet (bits.mask F) v w) = v /\
    bits.get F (bits.negate_sched quiet (bits.mask F) w) = negb (bits.get F w) /\
    bits.get F (bits.set_sched quiet (bits.mask F) false
                  (bits.set_sched quiet (bits.mask F) true w)) = false.
Proof.
  intros F G v n w HFG quiet. unfold quiet, bits.set_sched, bits.negate_sched.
  rewrite !cas_loop_spurious.
  change (bits.set_word (bits.mask F) v w) with (bits.set F v w).
  change (bits.negate_word (bits.mask F) w) with (bits.negate F w).
  change (bits.set_word (bits.mask F) false (bits.set_word (bits.mask F) true w))
    with (bits.set F false (bits.set F true w)).
  rewrite !get_set_same, get_negate_same.
  rewrite (get_set_other v w HFG), (get_negate_other w HFG).
  repeat split; reflexivity.
Qed.

Lemma flag_register_frame_witness :
  bits.f_center <> bits.f_zero /\
  bits.get bits.f_zero
    (bits.set_sched (repeat bits.Spurious 2) (bits.mask bits.f_center) false 13) = true.
Proof.
  split; [discriminate|].
  pose proof (@flag_register_frame bits.f_center bits.f_zero false 2 13) as Hf.
  cbv zeta in Hf. destruct Hf as [Hf _]; [discriminate|].
  rewrite Hf. reflexivity.
Defined.

(* ===================================================================== *)
(** ** Facts about [reltrans] and the axis selector *)
(* ===================================================================== *)

(** C5: with mode [reltrans_disabled], [apply_pipeline] returns the pose it
    was given, whatever the pose and the disable mask, and leaves the
    interpolating flag [cur] and the zone flag [in_zone] false. *)
Theorem apply_pipeline_disabled :
  forall (D : Type) (A : Arith D) (cv : EulerConv D) (dt : D) (value : Pose D)
         (disable : vec6_bool) (st : reltrans.t D),
    fst (reltrans.apply_pipeline cv dt reltrans.reltrans_disabled value disable st) = value /\
    reltrans.cur
      (snd (reltrans.apply_pipeline cv dt reltrans.reltrans_disabled value disable st)) = false /\
    reltrans.in_zone
      (snd (reltrans.apply_pipeline cv dt reltrans.reltrans_disabled value disable st)) = false.
Proof. intros. cbn. repeat split. Qed.

Lemma at6_tab6 {A} (f : Axis -> A) (i : Axis) : at6 (tab6 f) i = f i.
Proof. destruct i; reflexivity. Qed.

Section Selector.
Import pipeline.
Context {D : Type} `{Arith D}.
Variable cfg : config D.

Lemma axis_of_Z_some k a : axis_of_Z k = Some a <-> Z_of_axis a = k.
Proof.
    split.
    - destruct k as [|p|p]; try discriminate.
      + intros E; inversion E; reflexivity.
      + destruct p as [[[?|?|]|[?|?|]|]|[[?|?|]|[?|?|]|]|]; cbn; try discriminate;
          intros E; inversion E; reflexivity.
    - intros <-. destruct a; reflexivity.
Qed.

Lemma axis_of_Z_none k : axis_of_Z k = None <-> (k < 0 \/ 5 < k)%Z.
Proof.
    split.
    - intros E. destruct (Z_lt_le_dec k 0) as [|H0]; [now left|].
      destruct (Z_lt_le_dec 5 k) as [|H5]; [now right|].
      assert (Hk : (k = 0 \/ k = 1 \/ k = 2 \/ k = 3 \/ k = 4 \/ k = 5)%Z) by lia.
      destruct Hk as [Hk|[Hk|[Hk|[Hk|[Hk|Hk]]]]]; rewrite Hk in E; discriminate.
    - intros Hk. destruct (axis_of_Z k) as [a|] eqn:E; [|reflexivity].
      apply axis_of_Z_some in E. destruct a; cbn in E; lia.
Qed.

(** The bounds test of line 358 and the validity of the index agree. *)
Lemma selected_channel_eq newpose_ i :
    selected_channel cfg newpose_ i =
    Some match axis_of_Z (src (opts (at6 (m cfg) i))) with
         | Some a => at6 newpose_ a
         | None => d_of_Z 0
         end.
Proof.
    unfold selected_channel, read6.
    set (k := src (opts (at6 (m cfg) i))).
    destruct (axis_of_Z k) as [a|] eqn:E.
    - apply axis_of_Z_some in E.
      assert (Hk : (0 <= k <= 5)%Z) by (destruct a; cbn in E; lia).
      destruct (Z.ltb_spec k 0); [lia|]. destruct (Z.geb_spec k 6); [lia|].
      reflexivity.
    - apply axis_of_Z_none in E.
      destruct (Z.ltb_spec k 0); [reflexivity|].
      destruct (Z.geb_spec k 6); [reflexivity|]. lia.
Qed.

Lemma get_selected_axis_value_defined newpose_ :
    get_selected_axis_value cfg newpose_ =
    Some (newpose_,
          tab6 (fun i => match axis_of_Z (src (opts (at6 (m cfg) i))) with
                         | Some a => at6 newpose_ a
                         | None => d_of_Z 0
                         end),
          tab6 (selected_disabled cfg)).
Proof.
    unfold get_selected_axis_value. rewrite !selected_channel_eq. reflexivity.
Qed.
End Selector.

(** C7: for every raw pose and every choice of source indices,
    [get_selected_axis_value] returns a result, so none of its reads leaves
    the six channels; channel [i] of the selected pose is the raw value at
    the configured index when the index is in 0..5 and 0 otherwise; and bit
    [i] of the disabled mask is set exactly when the index is 6. *)
Theorem get_selected_axis_value_spec :
  forall (D : Type) (A : Arith D) (cfg : pipeline.config D) (newpose_ : Pose D),
  exists value disabled,
    pipeline.get_selected_axis_value cfg newpose_ = Some (newpose_, value, disabled) /\
    forall i : Axis,
      let k := pipeline.src (pipeline.opts (at6 (pipeline.m cfg) i)) in
      ((0 <= k <= 5)%Z ->
         exists a, Z_of_axis a = k /\ read6 newpose_ k = Some (at6 newpose_ a) /\
                   at6 value i = at6 newpose_ a) /\
      ((k < 0 \/ 5 < k)%Z -> at6 value i = d_of_Z 0) /\
      (at6 disabled i = true <-> k = 6%Z).
Proof.
  intros D A cfg newpose_.
  eexists. eexists. split; [apply get_selected_axis_value_defined|].
  intros i. cbv zeta. rewrite !at6_tab6. unfold pipeline.selected_disabled.
  set (k := pipeline.src (pipeline.opts (at6 (pipeline.m cfg) i))).
  repeat split.
  - intros Hk.
    destruct (axis_of_Z k) as [a|] eqn:E.
    + exists a. pose proof (proj1 (axis_of_Z_some k a) E) as Ea.
      split; [exact Ea|]. split; [|reflexivity].
      unfold read6. now rewrite E.
    + apply axis_of_Z_none in E. lia.
  - intros Hk. apply axis_of_Z_none in Hk. now rewrite Hk.
  - intros E. apply Z.eqb_eq in E. exact E.
  - intros E. apply Z.eqb_eq. exact E.
Qed.

(* ===================================================================== *)
(** ** One tick of [logic], stage by stage *)
(* ===================================================================== *)

Ltac splits := repeat match goal with |- _ /\ _ => split end.

Section CountFacts.
Import pipeline Trace.
Context {D : Type}.

Lemma count_app (p : event D -> bool) l1 l2 :
    count p (l1 ++ l2) = (count p l1 + count p l2)%nat.
Proof. unfold count. now rewrite filter_app, length_app. Qed.

Lemma count_cons (p : event D -> bool) e l :
    count p (e :: l) = ((if p e then 1 else 0) + count p l)%nat.
Proof. unfold count. cbn. destruct (p e); reflexivity. Qed.
End CountFacts.

Section TickFacts.
Import bits pipeline Trace Tick.
Context {D : Type} `{Arith D}.
Variable cfg : config D.
Variable io : tick_io D.

Lemma same_data_trans (s1 s2 s3 : state D) :
    same_data s1 s2 -> same_data s2 s3 -> same_data s1 s3.
Proof. unfold same_data. intuition congruence. Qed.

Lemma nan_check_run (v : Pose D) (st : state D) :
    nan_check [v] st =
    if is_nan v then (GotoNan, emit_nan_check_msg st) else (Ok tt, st).
Proof.
    unfold nan_check, bind, lift, maybe_nan, nan_check_, goto_nan, ret.
    cbn [existsb]. rewrite orb_false_r. destruct (is_nan v); reflexivity.
Qed.

(** [logic_body] leaves through [goto nan] exactly when one of the three
    checks fails, in the state the views describe. *)
Lemma logic_body_run st :
    logic_body cfg io st =
    (if nan_detected cfg io st then GotoNan
     else Ok (fst (mapped cfg io st), raw cfg io st),
     st_checked cfg io st).
Proof.
    unfold logic_body, nan_detected, st_checked, nan_at_input, nan_at_filter, nan_at_output.
    unfold bind at 1. unfold lift at 1.
    destruct (ask_own_center_logic io st) as [own st1] eqn:Eask.
    assert (Eown : own_center_logic io st = own)
      by (unfold own_center_logic; now rewrite Eask).
    assert (Est1 : st_asked io st = st1) by (unfold st_asked; now rewrite Eask).
    unfold bind at 1. rewrite nan_check_run.
    destruct (is_nan (tracker_data io)) eqn:E1; cbn [orb].
    { rewrite Est1. reflexivity. }
    unfold bind at 1, modify at 1. unfold bind at 1, read at 1.
    unfold bind at 1, modify at 1. unfold bind at 1, modify at 1.
    unfold bind at 1, read at 1.
    unfold bind at 1. rewrite nan_check_run.
    assert (Ec : maybe_set_center_pose cfg (filter_loaded io)
        (clamp_value (snd (fst (selected_axis_value cfg
           (newpose (store_newpose (ev_raw io (tracker_data io)) st1))))))
        own (maybe_enable_center_on_tracking_started cfg
               (store_newpose (ev_raw io (tracker_data io)) st1)) = st_centered cfg io st).
    { unfold st_centered, st_latched, clamped, selected, st_stored.
      now rewrite Eown, Est1. }
    rewrite Ec.
    assert (Ef : maybe_apply_filter (pFilter io) (ev_before_filter io
       (apply_center cfg (st_centered cfg io st)
          (clamp_value (snd (fst (selected_axis_value cfg
           (newpose (store_newpose (ev_raw io (tracker_data io)) st1))))))))
       = filtered cfg io st).
    { unfold filtered, clamped, selected, st_stored. now rewrite Est1. }
    rewrite Ef.
    destruct (is_nan (filtered cfg io st)) eqn:E2; cbn [orb]; [reflexivity|].
    unfold mapped, raw, selected, st_stored. rewrite Est1.
    unfold bind at 1, lift at 1.
    destruct (map_axes cfg [Yaw; Pitch; Roll] _ _) as [v1 s1].
    unfold bind at 1, lift at 1.
    destruct (apply_reltrans cfg (interp_dt io) v1 _ s1) as [v2 s2].
    unfold bind at 1, lift at 1.
    destruct (map_axes cfg [TX; TY; TZ] v2 s2) as [v3 s3].
    unfold bind at 1. rewrite nan_check_run. cbn [fst snd].
    destruct (is_nan v3); reflexivity.
Qed.

(** A mapping loop touches only the curves' activity marks. *)
Lemma map_axes_state axes value st :
    exists ta, snd (map_axes cfg axes value st) = with_tracking_active ta st.
Proof.
    revert value st. induction axes as [|i rest IH]; intros value st; cbn [map_axes].
    - exists (tracking_active st). destruct st; reflexivity.
    - destruct (map cfg (at6 value i) i st) as [v s1] eqn:Em.
      assert (Es : s1 = with_tracking_active (tracking_active s1) st).
      { unfold map in Em. inversion Em. reflexivity. }
      destruct (IH (upd6 value i v) s1) as [ta Eta].
      exists ta. rewrite Eta, Es. reflexivity.
Qed.

Lemma mapped_state st :
    exists ta r,
      snd (mapped cfg io st) = with_tracking_active ta (with_rel r (st_centered cfg io st)).
Proof.
    unfold mapped. generalize (st_centered cfg io st) as s0.
    generalize (ev_before_mapping io (filtered cfg io st)) as v0.
    generalize (snd (selected cfg io st)) as dis. intros dis v0 s0.
    destruct (map_axes_state [Yaw; Pitch; Roll] v0 s0) as [ta1 E1].
    destruct (map_axes cfg [Yaw; Pitch; Roll] v0 s0) as [v1 s1]. cbn [snd] in E1. subst s1.
    destruct (apply_reltrans cfg (interp_dt io) v1 dis (with_tracking_active ta1 s0))
      as [v2 s2] eqn:Er.
    assert (Es : s2 = with_rel (pipeline.rel s2) (with_tracking_active ta1 s0)).
    { unfold apply_reltrans in Er. inversion Er. reflexivity. }
    destruct (map_axes_state [TX; TY; TZ] v2 s2) as [ta2 E2].
    exists ta2, (pipeline.rel s2). rewrite E2, Es. reflexivity.
Qed.

Lemma asked_summary (st : state D) :
    same_data st (st_asked io st) /\ same_control st (st_asked io st) /\
    trace (st_asked io st) = tracker_events st ++ trace st.
Proof.
    unfold st_asked, ask_own_center_logic, tracker_events, same_data, same_control.
    destruct (pipeline.get f_center st && tracking_started st); cbn; repeat split.
Qed.

Lemma stored_summary (tmp : Pose D) (st : state D) :
    same_data st (store_newpose tmp st) /\
    b (store_newpose tmp st) = b st /\
    tracking_started (store_newpose tmp st) = tracking_started st /\
    trace (store_newpose tmp st) = trace st /\
    newpose (store_newpose tmp st) =
      if xorb (pipeline.get f_enabled_p st) (negb (pipeline.get f_enabled_h st))
      then tmp else newpose st.
Proof.
    unfold store_newpose, same_data. destruct (xorb _ _); cbn; repeat split.
Qed.

Lemma latched_summary (st : state D) :
    let st' := maybe_enable_center_on_tracking_started cfg st in
    same_data st st' /\ newpose st' = newpose st /\ trace st' = trace st /\
    tracking_started st' = tracking_started st || some_channel_nonzero (newpose st) /\
    b st' = if negb (tracking_started st) && some_channel_nonzero (newpose st)
               && center_at_startup (s cfg)
            then bits.set f_center true (b st) else b st.
Proof.
    unfold maybe_enable_center_on_tracking_started, same_data.
    destruct (some_channel_nonzero (newpose st)), (center_at_startup (s cfg)),
      (tracking_started st) eqn:Ets; cbn; rewrite ?Ets; cbn; repeat split; assumption.
Qed.

Lemma centered_summary fl (value : Pose D) own (st : state D) :
    let st' := maybe_set_center_pose cfg fl value own st in
    same_data st st' /\ same_control st st' /\
    trace st' = (if pipeline.get f_center st
                 then CenterPose own :: (if fl then [FilterCenter] else [])
                 else []) ++ trace st.
Proof.
    unfold maybe_set_center_pose, same_data, same_control, pipeline.get. cbn.
    destruct (bits.get f_center (b st)); cbn; [|repeat split].
    destruct fl, own; cbn; repeat split.
Qed.

Lemma emit_nan_summary (st : state D) :
    let st' := emit_nan_check_msg st in
    output_pose st' = output_pose st /\ raw_6dof st' = raw_6dof st /\
    backlog_time st' = backlog_time st /\ same_control st st' /\
    nan_msg_emitted st' = true /\
    trace st' = (if nan_msg_emitted st then [] else [NanMsg]) ++ trace st.
Proof.
    unfold emit_nan_check_msg, same_control.
    destruct (nan_msg_emitted st) eqn:E; cbn; repeat split; assumption.
Qed.

Lemma st_latched_summary st :
    let st' := st_latched cfg io st in
    same_data st st' /\
    newpose st' = newpose (st_stored io st) /\
    trace st' = tracker_events st ++ trace st /\
    tracking_started st' =
      tracking_started st || some_channel_nonzero (newpose (st_stored io st)) /\
    b st' = if negb (tracking_started st)
               && some_channel_nonzero (newpose (st_stored io st))
               && center_at_startup (s cfg)
            then bits.set f_center true (b st) else b st.
Proof.
    pose proof (latched_summary (st_stored io st)) as (Hd2 & Hnp2 & Htr2 & Hts2 & Hb2).
    change (maybe_enable_center_on_tracking_started cfg (st_stored io st))
      with (st_latched cfg io st) in *.
    pose proof (stored_summary (ev_raw io (tracker_data io)) (st_asked io st))
      as (Hd3 & Hb3 & Hts3 & Htr3 & _).
    change (store_newpose (ev_raw io (tracker_data io)) (st_asked io st))
      with (st_stored io st) in *.
    destruct (asked_summary st) as (Hd4 & (Hb4 & Hts4 & Hnp4) & Htr4).
    cbv zeta. splits.
    - eapply same_data_trans; [|exact Hd2]. eapply same_data_trans; [exact Hd4 | exact Hd3].
    - exact Hnp2.
    - rewrite Htr2, Htr3, Htr4. reflexivity.
    - rewrite Hts2, Hts3, Hts4. reflexivity.
    - rewrite Hb2, Hts3, Hts4, Hb3, Hb4. reflexivity.
Qed.

(** The sample is stored unless exactly one of the two enable flags is
    off. *)
Lemma newpose_stored st :
    newpose (st_stored io st) =
    if xorb (pipeline.get f_enabled_p st) (negb (pipeline.get f_enabled_h st))
    then ev_raw io (tracker_data io) else newpose st.
Proof.
    unfold st_stored.
    destruct (stored_summary (ev_raw io (tracker_data io)) (st_asked io st))
      as (_ & _ & _ & _ & Hnp).
    destruct (asked_summary st) as (_ & (Hb & _ & Hnp0) & _).
    rewrite Hnp, Hnp0. unfold pipeline.get. now rewrite Hb.
Qed.

Lemma st_centered_summary st :
    let st' := st_centered cfg io st in
    same_data st st' /\
    b st' = b (st_latched cfg io st) /\
    tracking_started st' =
      tracking_started st || some_channel_nonzero (newpose (st_stored io st)) /\
    newpose st' = newpose (st_stored io st) /\
    trace st' = center_events cfg io st ++ tracker_events st ++ trace st.
Proof.
    pose proof (centered_summary (filter_loaded io) (clamped cfg io st)
                (own_center_logic io st) (st_latched cfg io st))
      as (Hd & (Hb & Hts & Hnp) & Htr).
    change (maybe_set_center_pose cfg (filter_loaded io) (clamped cfg io st)
              (own_center_logic io st) (st_latched cfg io st))
      with (st_centered cfg io st) in *.
    destruct (st_latched_summary st) as (Hd2 & Hnp2 & Htr2 & Hts2 & Hb2).
    cbv zeta. unfold center_events. splits.
    - eapply same_data_trans; [exact Hd2 | exact Hd].
    - exact Hb.
    - rewrite Hts, Hts2. reflexivity.
    - rewrite Hnp, Hnp2. reflexivity.
    - rewrite Htr, Htr2. reflexivity.
Qed.

Lemma mapped_summary st :
    let st' := snd (mapped cfg io st) in
    let s0 := st_centered cfg io st in
    same_data s0 st' /\ same_control s0 st' /\ trace st' = trace s0.
Proof.
    destruct (mapped_state st) as (ta & r & E). cbv zeta. rewrite E.
    unfold same_data, same_control. cbn. repeat split.
Qed.

(** The state in which the tick reaches [nan] or [ok]. *)
Lemma st_checked_summary st :
    let st' := st_checked cfg io st in
    output_pose st' = output_pose st /\ raw_6dof st' = raw_6dof st /\
    backlog_time st' = backlog_time st /\
    nan_msg_emitted st' = nan_msg_emitted st || nan_detected cfg io st /\
    b st' = (if nan_at_input io then b st else b (st_latched cfg io st)) /\
    tracking_started st' =
      (if nan_at_input io then tracking_started st
       else tracking_started st || some_channel_nonzero (newpose (st_stored io st))) /\
    newpose st' = (if nan_at_input io then newpose st else newpose (st_stored io st)) /\
    trace st' = nan_events cfg io st ++
                (if nan_at_input io then [] else center_events cfg io st) ++
                tracker_events st ++ trace st.
Proof.
    cbv zeta. unfold st_checked, nan_events, nan_detected.
    destruct (asked_summary st) as ((A1 & A2 & A3 & A4) & (A5 & A6 & A7) & A8).
    destruct (st_centered_summary st) as ((C1 & C2 & C3 & C4) & C5 & C6 & C7 & C8).
    destruct (mapped_summary st) as ((M1 & M2 & M3 & M4) & (M5 & M6 & M7) & M8).
    cbv zeta in *.
    destruct (nan_at_input io) eqn:E1; cbn [orb andb].
    { destruct (emit_nan_summary (st_asked io st))
        as (N1 & N2 & N3 & (N4 & N5 & N6) & N7 & N8).
      cbv zeta in *.
      rewrite N1, N2, N3, N4, N5, N6, N7, N8, A1, A2, A3, A4, A5, A6, A7, A8.
      rewrite orb_true_r. cbn [app].
      destruct (nan_msg_emitted st); repeat split. }
    destruct (nan_at_filter cfg io st) eqn:E2; cbn [orb andb].
    { destruct (emit_nan_summary (st_centered cfg io st))
        as (N1 & N2 & N3 & (N4 & N5 & N6) & N7 & N8).
      cbv zeta in *.
      rewrite N1, N2, N3, N4, N5, N6, N7, N8, C1, C2, C3, C4, C5, C6, C7, C8.
      rewrite orb_true_r.
      destruct (nan_msg_emitted st); repeat split. }
    destruct (nan_at_output cfg io st) eqn:E3; cbn [orb andb].
    { destruct (emit_nan_summary (snd (mapped cfg io st)))
        as (N1 & N2 & N3 & (N4 & N5 & N6) & N7 & N8).
      cbv zeta in *.
      rewrite N1, N2, N3, N4, N5, N6, N7, N8, M1, M2, M3, M4, M5, M6, M7, M8,
        C1, C2, C3, C4, C5, C6, C7, C8.
      rewrite orb_true_r.
      destruct (nan_msg_emitted st); repeat split. }
    rewrite M1, M2, M3, M4, M5, M6, M7, M8, C1, C2, C3, C4, C5, C6, C7, C8.
    rewrite orb_false_r. repeat split.
Qed.

Lemma finish_summary (value raw_ : Pose D) (st : state D) :
    let st' := finish cfg io value raw_ st in
    let out := ev_finished io
                 (apply_zero_pos cfg
                    (if pipeline.get f_zero (pipeline.set f_center false st)
                     then zero_pose else value)) in
    b st' = bits.set f_center false (b st) /\
    tracking_started st' = tracking_started st /\ newpose st' = newpose st /\
    nan_msg_emitted st' = nan_msg_emitted st /\ backlog_time st' = backlog_time st /\
    output_pose st' = out /\ raw_6dof st' = raw_ /\
    trace st' = ProtocolPose out :: trace st.
Proof. unfold finish. cbn. repeat split. Qed.

(** The whole tick. *)
Lemma logic_summary st :
    let st' := logic cfg io st in
    let s1 := st_checked cfg io st in
    b st' = bits.set f_center false (b s1) /\
    tracking_started st' = tracking_started s1 /\ newpose st' = newpose s1 /\
    nan_msg_emitted st' = nan_msg_emitted s1 /\ backlog_time st' = backlog_time st /\
    output_pose st' = published cfg io st /\
    raw_6dof st' = (if nan_detected cfg io st then raw_6dof st else raw cfg io st) /\
    trace st' = ProtocolPose (published cfg io st) :: trace s1.
Proof.
    cbv zeta. unfold logic. rewrite logic_body_run.
    destruct (st_checked_summary st) as (K1 & K2 & K3 & _).
    cbv zeta in *. unfold published, carried.
    destruct (nan_detected cfg io st) eqn:En.
    - unfold nan_fallback.
      destruct (map_axes_state all_axes (raw_6dof (st_checked cfg io st))
                  (st_checked cfg io st)) as [ta Eta].
      rewrite Eta.
      destruct (finish_summary (output_pose (st_checked cfg io st))
                  (raw_6dof (st_checked cfg io st))
                  (with_tracking_active ta (st_checked cfg io st)))
        as (F1 & F2 & F3 & F4 & F5 & F6 & F7 & F8).
      cbv zeta in *. rewrite F1, F2, F3, F4, F5, F6, F7, F8. cbn.
      rewrite K1, K2, K3. repeat split.
    - destruct (finish_summary (fst (mapped cfg io st)) (raw cfg io st)
                  (st_checked cfg io st))
        as (F1 & F2 & F3 & F4 & F5 & F6 & F7 & F8).
      cbv zeta in *. rewrite F1, F2, F3, F4, F5, F6, F7, F8, K3. repeat split.
Qed.

(** Only the centre bit of the flag word changes during a tick. *)
Lemma flags_kept F st :
    F <> f_center ->
    bits.get F (b (st_checked cfg io st)) = bits.get F (b st) /\
    bits.get F (b (logic cfg io st)) = bits.get F (b st).
Proof.
    intros HF.
    destruct (st_checked_summary st) as (_ & _ & _ & _ & Kb & _).
    destruct (logic_summary st) as (Lb & _).
    destruct (st_latched_summary st) as (_ & _ & _ & _ & Hb).
    cbv zeta in *.
    assert (E : bits.get F (b (st_checked cfg io st)) = bits.get F (b st)).
    { rewrite Kb. destruct (nan_at_input io); [reflexivity|].
      rewrite Hb. destruct (_ && _ && _); [|reflexivity].
      apply get_set_other. congruence. }
    split; [exact E|]. rewrite Lb, get_set_other by congruence. exact E.
Qed.

Lemma published_eq st :
    published cfg io st =
    ev_finished io
      (apply_zero_pos cfg
         (if pipeline.get f_zero st then zero_pose else carried cfg io st)).
Proof.
    unfold published, pipeline.get, pipeline.set. cbn [b with_b].
    rewrite get_set_other by discriminate.
    destruct (@flags_kept f_zero st) as [E _]; [discriminate|]. now rewrite E.
Qed.
End TickFacts.

Section TickCounts.
Import bits pipeline Trace Tick.
Context {D : Type} `{Arith D}.
Variable cfg : config D.

Lemma count_tracker_events (p : event D -> bool) (st : state D) :
    count p (tracker_events st) =
    if pipeline.get f_center st && tracking_started st
    then if p TrackerCenter then 1 else 0 else 0.
Proof. unfold tracker_events. destruct (_ && _), (p TrackerCenter) eqn:E;
         unfold count; cbn; rewrite ?E; reflexivity. Qed.

Lemma count_nan_events (p : event D -> bool) io (st : state D) :
    count p (nan_events cfg io st) =
    if nan_detected cfg io st && negb (nan_msg_emitted st)
    then if p NanMsg then 1 else 0 else 0.
Proof. unfold nan_events. destruct (_ && _), (p NanMsg) eqn:E;
         unfold count; cbn; rewrite ?E; reflexivity. Qed.

Lemma count_center_events (p : event D -> bool) io (st : state D) :
    count p (center_events cfg io st) =
    if pipeline.get f_center (st_latched cfg io st)
    then ((if p (CenterPose (own_center_logic io st)) then 1 else 0)
          + (if filter_loaded io then if p FilterCenter then 1 else 0 else 0))%nat
    else 0%nat.
Proof.
    unfold center_events.
    destruct (pipeline.get f_center (st_latched cfg io st)); [|reflexivity].
    rewrite count_cons. destruct (filter_loaded io); [|reflexivity].
    rewrite count_cons. cbn. lia.
Qed.

Lemma count_nil (p : event D -> bool) : count p [] = 0%nat.
Proof. reflexivity. Qed.

(** The centre bit when [maybe_set_center_pose] tests it: a pending
    request, or the start-up centering firing in this tick. *)
Lemma center_at_latch io st :
    pipeline.get f_center (st_latched cfg io st) =
    pipeline.get f_center st
    || (negb (tracking_started st)
        && some_channel_nonzero (newpose (st_stored io st))
        && center_at_startup (s cfg)).
Proof.
    destruct (st_latched_summary cfg io st) as (_ & _ & _ & _ & Hb).
    cbv zeta in Hb. unfold pipeline.get. rewrite Hb.
    destruct (_ && _ && _).
    - rewrite get_set_same. now rewrite orb_true_r.
    - now rewrite orb_false_r.
Qed.

(** The messages of one tick. *)
Lemma logic_nan_msgs io st :
    count is_nan_msg (trace (logic cfg io st)) =
      (count is_nan_msg (trace st)
       + (if nan_detected cfg io st && negb (nan_msg_emitted st) then 1 else 0))%nat /\
    nan_msg_emitted (logic cfg io st) = nan_msg_emitted st || nan_detected cfg io st.
Proof.
    destruct (logic_summary cfg io st) as (_ & _ & _ & Le & _ & _ & _ & Lt).
    destruct (st_checked_summary cfg io st) as (_ & _ & _ & Ke & _ & _ & _ & Kt).
    cbv zeta in *. rewrite Lt, Le, Kt, Ke. split; [|reflexivity].
    rewrite count_cons, !count_app, count_nan_events, count_tracker_events.
    destruct (nan_at_input io); rewrite ?count_center_events, ?count_nil;
      cbn [is_nan_msg];
      destruct (nan_detected cfg io st && negb (nan_msg_emitted st)),
        (pipeline.get f_center st && tracking_started st);
      try destruct (pipeline.get f_center (st_latched cfg io st));
      try destruct (filter_loaded io); cbn; lia.
Qed.

(** The centre poses of one tick. *)
Lemma logic_center_poses io st :
    count is_center_pose (trace (logic cfg io st)) =
      (count is_center_pose (trace st)
       + (if negb (nan_at_input io) && pipeline.get f_center (st_latched cfg io st)
          then 1 else 0))%nat.
Proof.
    destruct (logic_summary cfg io st) as (_ & _ & _ & _ & _ & _ & _ & Lt).
    destruct (st_checked_summary cfg io st) as (_ & _ & _ & _ & _ & _ & _ & Kt).
    cbv zeta in *. rewrite Lt, Kt.
    rewrite count_cons, !count_app, count_nan_events, count_tracker_events.
    destruct (nan_at_input io); rewrite ?count_center_events, ?count_nil;
      cbn [is_center_pose];
      destruct (nan_detected cfg io st && negb (nan_msg_emitted st)),
        (pipeline.get f_center st && tracking_started st);
      try destruct (pipeline.get f_center (st_latched cfg io st));
      try destruct (filter_loaded io); cbn; lia.
Qed.

Lemma logic_filter_centers io st :
    count is_filter_center (trace (logic cfg io st)) =
      (count is_filter_center (trace st)
       + (if negb (nan_at_input io) && pipeline.get f_center (st_latched cfg io st)
             && filter_loaded io
          then 1 else 0))%nat.
Proof.
    destruct (logic_summary cfg io st) as (_ & _ & _ & _ & _ & _ & _ & Lt).
    destruct (st_checked_summary cfg io st) as (_ & _ & _ & _ & _ & _ & _ & Kt).
    cbv zeta in *. rewrite Lt, Kt.
    rewrite count_cons, !count_app, count_nan_events, count_tracker_events.
    destruct (nan_at_input io); rewrite ?count_center_events, ?count_nil;
      cbn [is_filter_center];
      destruct (nan_detected cfg io st && negb (nan_msg_emitted st)),
        (pipeline.get f_center st && tracking_started st);
      try destruct (pipeline.get f_center (st_latched cfg io st));
      try destruct (filter_loaded io); cbn; lia.
Qed.

Lemma logic_tracker_centers io st :
    count is_tracker_center (trace (logic cfg io st)) =
      (count is_tracker_center (trace st)
       + (if pipeline.get f_center st && tracking_started st then 1 else 0))%nat.
Proof.
    destruct (logic_summary cfg io st) as (_ & _ & _ & _ & _ & _ & _ & Lt).
    destruct (st_checked_summary cfg io st) as (_ & _ & _ & _ & _ & _ & _ & Kt).
    cbv zeta in *. rewrite Lt, Kt.
    rewrite count_cons, !count_app, count_nan_events, count_tracker_events.
    destruct (nan_at_input io); rewrite ?count_center_events, ?count_nil;
      cbn [is_tracker_center];
      destruct (nan_detected cfg io st && negb (nan_msg_emitted st)),
        (pipeline.get f_center st && tracking_started st);
      try destruct (pipeline.get f_center (st_latched cfg io st));
      try destruct (filter_loaded io); cbn; lia.
Qed.

Lemma logic_tracking_started io st :
    tracking_started (logic cfg io st) =
    if nan_at_input io then tracking_started st
    else tracking_started st || some_channel_nonzero (newpose (st_stored io st)).
Proof.
    destruct (logic_summary cfg io st) as (_ & Lts & _).
    destruct (st_checked_summary cfg io st) as (_ & _ & _ & _ & _ & Kts & _).
    cbv zeta in *. now rewrite Lts, Kts.
Qed.

Lemma logic_newpose io st :
    newpose (logic cfg io st) =
    if nan_at_input io then newpose st else newpose (st_stored io st).
Proof.
    destruct (logic_summary cfg io st) as (_ & _ & Lnp & _).
    destruct (st_checked_summary cfg io st) as (_ & _ & _ & _ & _ & _ & Knp & _).
    cbv zeta in *. now rewrite Lnp, Knp.
Qed.

Lemma logic_center_flag io st : pipeline.get f_center (logic cfg io st) = false.
Proof.
    destruct (logic_summary cfg io st) as (Lb & _). cbv zeta in Lb.
    unfold pipeline.get. rewrite Lb. apply get_set_same.
Qed.

(** Once the message is out, no tick emits it again. *)
Lemma ticks_nan_msgs_after ios : forall st,
    nan_msg_emitted st = true ->
    count is_nan_msg (trace (ticks cfg ios st)) = count is_nan_msg (trace st).
Proof.
    induction ios as [|io rest IH]; intros st Hst; cbn [ticks]; [reflexivity|].
    destruct (logic_nan_msgs io st) as (Hc & He).
    rewrite IH by (rewrite He, Hst; reflexivity).
    rewrite Hc, Hst, andb_false_r. lia.
Qed.




Lemma logic_backlog io st : backlog_time (logic cfg io st) = backlog_time st.
Proof. now destruct (logic_summary cfg io st) as (_ & _ & _ & _ & Lb & _). Qed.
End TickCounts.

(* ===================================================================== *)
(** ** The NaN guard, the centering latch and the centre flag *)
(* ===================================================================== *)

(** C1 (as amended): when one of the three checks of a tick finds a NaN or
    an infinity, the raw snapshot stays the previous one, and the published
    pose is the previous output pose provided the zero override is off and
    neither the zero offsets nor the finish hook change that pose; the
    diagnostic is emitted at most once in the life of the process: over a
    run of consecutive NaN ticks, once if it was never emitted before and
    not at all otherwise. *)
Theorem nan_tick_reuses_last_output :
  forall (D : Type) (A : Arith D) (cfg : pipeline.config D)
         (io : pipeline.tick_io D) (st : pipeline.state D),
    Tick.nan_detected cfg io st = true ->
    pipeline.raw_6dof (pipeline.logic cfg io st) = pipeline.raw_6dof st /\
    (pipeline.get bits.f_zero st = false ->
     pipeline.apply_zero_pos cfg (pipeline.output_pose st) = pipeline.output_pose st ->
     pipeline.ev_finished io (pipeline.output_pose st) = pipeline.output_pose st ->
     pipeline.output_pose (pipeline.logic cfg io st) = pipeline.output_pose st) /\
    (forall ios,
       Tick.all_nan cfg ios (pipeline.logic cfg io st) = true ->
       Trace.count Trace.is_nan_msg (pipeline.trace (pipeline.ticks cfg (io :: ios) st)) =
       (Trace.count Trace.is_nan_msg (pipeline.trace st)
        + (if pipeline.nan_msg_emitted st then 0 else 1))%nat).
Proof.
  intros D A cfg io st Hnan.
  destruct (logic_summary cfg io st) as (_ & _ & _ & _ & _ & Lo & Lr & _).
  cbv zeta in *. splits.
  - now rewrite Lr, Hnan.
  - intros Hz Hoff Hev. rewrite Lo, published_eq, Hz. unfold Tick.carried.
    now rewrite Hnan, Hoff, Hev.
  - intros ios _. cbn [pipeline.ticks].
    destruct (logic_nan_msgs cfg io st) as (Hc & He).
    rewrite ticks_nan_msgs_after by (rewrite He, Hnan; apply orb_true_r).
    rewrite Hc, Hnan. cbn [andb]. now destruct (pipeline.nan_msg_emitted st).
Qed.

Lemma nan_tick_reuses_last_output_witness :
  Tick.nan_detected Demo.cfg0 (Demo.sample Demo.broken) Demo.tracking = true /\
  pipeline.raw_6dof (pipeline.logic Demo.cfg0 (Demo.sample Demo.broken) Demo.tracking)
    = pipeline.raw_6dof Demo.tracking /\
  pipeline.output_pose (pipeline.logic Demo.cfg0 (Demo.sample Demo.broken) Demo.tracking)
    = pipeline.output_pose Demo.tracking.
Proof.
  assert (Hn : Tick.nan_detected Demo.cfg0 (Demo.sample Demo.broken) Demo.tracking = true)
    by (vm_compute; reflexivity).
  destruct (@nan_tick_reuses_last_output float float_arith Demo.cfg0
              (Demo.sample Demo.broken) Demo.tracking Hn) as (H1 & H2 & _).
  split; [exact Hn|]. split; [exact H1|].
  apply H2; vm_compute; reflexivity.
Defined.

(** C1, as stated, fails: with the zero override switched on between two
    ticks, a NaN tick publishes the zero pose, not the previous output. *)
Lemma nan_tick_with_zero_override :
  Tick.nan_detected Demo.cfg0 (Demo.sample Demo.broken)
    (pipeline.set_zero true Demo.tracking) = true /\
  pipeline.output_pose (pipeline.set_zero true Demo.tracking) = Demo.moved 2 /\
  pipeline.output_pose
    (pipeline.logic Demo.cfg0 (Demo.sample Demo.broken)
       (pipeline.set_zero true Demo.tracking)) = Demo.at_rest /\
  Demo.moved 2 <> Demo.at_rest.
Proof.
  split; [vm_compute; reflexivity|]. split; [vm_compute; reflexivity|].
  split; [vm_compute; reflexivity|].
  intros E. apply (f_equal (fun p => PrimFloat.eqb (c_tx p) 0%float)) in E.
  vm_compute in E. discriminate.
Qed.

Section LatchFacts.
Import bits pipeline Trace Tick.
Context {D : Type} `{Arith D}.
Variable cfg : config D.




End LatchFacts.






(* ===================================================================== *)
(** ** The scheduler *)
(* ===================================================================== *)

Section Scheduler.
Import pipeline.
Local Open Scope Z_scope.

Lemma clamp_ns_range x lo hi : lo <= hi -> lo <= clamp_ns x lo hi <= hi.
Proof.
    intros. unfold clamp_ns.
    destruct (Z.ltb_spec hi x); [lia|]. destruct (Z.ltb_spec x lo); lia.
Qed.

Lemma sleep_time_ms_range backlog : 0 <= sleep_time_ms backlog <= 10.
Proof.
    unfold sleep_time_ms, time_cast_ms.
    pose proof (@clamp_ns_range (const_sleep_ms - backlog) 0 (ns_of_ms 10)) as Hc.
    unfold ns_of_ms in *. specialize (Hc ltac:(lia)).
    split.
    - apply Z.quot_pos; lia.
    - apply Z.quot_le_upper_bound; lia.
Qed.

Lemma backlog_overflow_abs backlog :
    backlog_overflow backlog = true <-> 3000000000 < Z.abs backlog.
Proof.
    unfold backlog_overflow, ns_of_secs. rewrite orb_true_iff.
    rewrite Z.gtb_lt, Z.ltb_lt. lia.
Qed.
End Scheduler.

(** C6 (as amended): every iteration calls [sleep] with
    [clamp(4ms - backlog, 0, 10ms)] cut down to whole milliseconds, a count
    between 0 and 10; and a backlog whose magnitude exceeds 3 seconds when
    the iteration tests it is replaced by zero before this iteration's
    excess is added. *)
Theorem run_iteration_sleep :
  forall (D : Type) (A : Arith D) (cfg : pipeline.config D)
         (io : pipeline.tick_io D) (elapsed_nsecs : Z) (st : pipeline.state D),
    let st' := pipeline.run_iteration cfg io elapsed_nsecs st in
    let slept :=
      Z.quot (pipeline.clamp_ns (pipeline.ns_of_ms 4 - pipeline.backlog_time st') 0
                (pipeline.ns_of_ms 10)) 1000000 in
    pipeline.backlog_time st' =
      ((if pipeline.backlog_overflow (pipeline.backlog_time st)
        then 0 else pipeline.backlog_time st)
       + (elapsed_nsecs - pipeline.ns_of_ms 4))%Z /\
    (exists tr, pipeline.trace st' = pipeline.Sleep slept :: tr) /\
    (0 <= slept <= 10)%Z /\
    (pipeline.backlog_overflow (pipeline.backlog_time st) = true <->
     (3000000000 < Z.abs (pipeline.backlog_time st))%Z).
Proof.
  intros D A cfg io elapsed_nsecs st. cbv zeta.
  pose proof (backlog_overflow_abs (pipeline.backlog_time st)) as Hb.
  unfold pipeline.run_iteration. rewrite logic_backlog.
  destruct (pipeline.backlog_overflow (pipeline.backlog_time st)) eqn:Eo;
    cbn [pipeline.backlog_time pipeline.with_backlog_time pipeline.emit pipeline.trace].
  all: rewrite ?logic_backlog;
    split; [reflexivity|]; split; [eexists; reflexivity|];
    split; [apply (sleep_time_ms_range _) | exact Hb].
Qed.

(** C6, as stated, fails: after an iteration that took 4.5 ms the clamp
    gives 3.5 ms and [sleep] is called with 3. *)
Lemma sleep_is_cut_to_whole_milliseconds :
  pipeline.backlog_time
    (pipeline.run_iteration Demo.cfg0 (Demo.sample Demo.at_rest) 4500000
       pipeline.fresh) = 500000%Z /\
  pipeline.clamp_ns (pipeline.ns_of_ms 4 - 500000) 0 (pipeline.ns_of_ms 10) = 3500000%Z /\
  hd_error (pipeline.trace
              (pipeline.run_iteration Demo.cfg0 (Demo.sample Demo.at_rest) 4500000
                 pipeline.fresh)) = Some (pipeline.Sleep 3) /\
  pipeline.ns_of_ms 3 <> 3500000%Z.
Proof.
  split; [vm_compute; reflexivity|]. split; [vm_compute; reflexivity|].
  split; [vm_compute; reflexivity|]. vm_compute. discriminate.
Qed.

(* ===================================================================== *)
(** ** The clamper, over exact reals *)
(* ===================================================================== *)

Section RealFmod.
Local Open Scope R_scope.

Lemma trunc_pos y k : 0 <= y -> IZR k <= y < IZR k + 1 -> RealD.trunc y = k.
Proof.
    intros Hy Hk. unfold RealD.trunc. destruct (Rle_dec 0 y); [|lra].
    symmetry. apply Int_part_spec. lra.
Qed.

Lemma trunc_neg y k : y < 0 -> y <= IZR k < y + 1 -> RealD.trunc y = k.
Proof.
    intros Hy Hk. unfold RealD.trunc. destruct (Rle_dec 0 y); [lra|].
    assert (E : (- k)%Z = Int_part (- y)).
    { apply Int_part_spec. rewrite opp_IZR. lra. }
    lia.
Qed.

(** [fmod(x, 360)] takes away whole turns, toward zero. *)
Lemma fmod_360_pos x k :
    0 <= x -> 360 * IZR k <= x < 360 * IZR k + 360 ->
    RealD.fmod x 360 = x - 360 * IZR k.
Proof.
    intros Hx Hk. unfold RealD.fmod.
    rewrite (@trunc_pos (x / 360) k); [reflexivity | lra | lra].
Qed.

Lemma fmod_360_neg x k :
    x < 0 -> 360 * IZR k - 360 < x <= 360 * IZR k ->
    RealD.fmod x 360 = x - 360 * IZR k.
Proof.
    intros Hx Hk. unfold RealD.fmod.
    rewrite (@trunc_neg (x / 360) k); [reflexivity | lra | lra].
Qed.

Lemma fmod_360_small x : -360 < x < 360 -> RealD.fmod x 360 = x.
Proof.
    intros Hx. destruct (Rle_dec 0 x).
    - rewrite (@fmod_360_pos x 0); lra.
    - rewrite (@fmod_360_neg x 0); lra.
Qed.

Lemma fmod_360_range x : -360 < RealD.fmod x 360 < 360.
Proof.
    unfold RealD.fmod, RealD.trunc. destruct (Rle_dec 0 (x / 360)).
    - destruct (base_Int_part (x / 360)). lra.
    - destruct (base_Int_part (- (x / 360))). rewrite opp_IZR. lra.
Qed.

Lemma ltb_true x y : RealD.ltb x y = true <-> x < y.
Proof. unfold RealD.ltb. destruct (Rlt_dec x y); split; intros; try discriminate; tauto. Qed.

Lemma ltb_false x y : RealD.ltb x y = false <-> y <= x.
Proof.
    unfold RealD.ltb. destruct (Rlt_dec x y); split; intros; try discriminate;
      try reflexivity; lra.
Qed.

(** [clamp_value] on one rotation channel, read over the reals. *)
Lemma clamp_rot_real v :
    pipeline.clamp_rot v =
    let x := RealD.fmod v 360 in
    if RealD.ltb 180 (Rabs x - 1 / 100)
    then RealD.fmod (x + RealD.copysign 180 x) 360 - RealD.copysign 180 x
    else if RealD.ltb 180 x then 180 else if RealD.ltb x (-180) then -180 else x.
Proof. reflexivity. Qed.

Lemma clamp_rot_wide x :
    -360 < x < 360 -> 180 < Rabs x - 1 / 100 ->
    RealD.fmod (x + RealD.copysign 180 x) 360 - RealD.copysign 180 x =
    if Rlt_dec x 0 then x + 360 else x - 360.
Proof.
    intros Hx Hw. unfold RealD.copysign. rewrite (Rabs_pos_eq 180) by lra.
    destruct (Rlt_dec x 0) as [Hn|Hp].
    - rewrite Rabs_left in Hw by lra.
      rewrite (@fmod_360_neg _ (-1)); lra.
    - rewrite Rabs_pos_eq in Hw by lra.
      rewrite (@fmod_360_pos _ 1); lra.
Qed.

Lemma clamp_rot_range v : -180 <= pipeline.clamp_rot v <= 180.
Proof.
    rewrite clamp_rot_real. cbv zeta.
    pose proof (fmod_360_range v) as Hx. set (x := RealD.fmod v 360) in *.
    destruct (RealD.ltb 180 (Rabs x - 1 / 100)) eqn:Ew.
    - apply ltb_true in Ew. rewrite clamp_rot_wide by assumption.
      destruct (Rlt_dec x 0) as [Hn|Hp].
      + rewrite Rabs_left in Ew by lra. lra.
      + rewrite Rabs_pos_eq in Ew by lra. lra.
    - destruct (RealD.ltb 180 x) eqn:E1; [lra|]. apply ltb_false in E1.
      destruct (RealD.ltb x (-180)) eqn:E2; [lra|]. apply ltb_false in E2. lra.
Qed.

Lemma clamp_rot_in_range v : -180 <= v <= 180 -> pipeline.clamp_rot v = v.
Proof.
    intros Hv. rewrite clamp_rot_real. cbv zeta.
    rewrite fmod_360_small by lra.
    assert (Ha : Rabs v <= 180) by (apply Rabs_le; lra).
    destruct (RealD.ltb 180 (Rabs v - 1 / 100)) eqn:Ew.
    - apply ltb_true in Ew. lra.
    - destruct (RealD.ltb 180 v) eqn:E1; [apply ltb_true in E1; lra|].
      destruct (RealD.ltb v (-180)) eqn:E2; [apply ltb_true in E2; lra|]. reflexivity.
Qed.

Lemma clamp_rot_wraps v x :
    RealD.fmod v 360 = x -> 180 < Rabs x - 1 / 100 ->
    pipeline.clamp_rot v = if Rlt_dec x 0 then x + 360 else x - 360.
Proof.
    intros Ex Hw. rewrite clamp_rot_real. cbv zeta. rewrite Ex.
    pose proof (fmod_360_range v) as Hx. rewrite Ex in Hx.
    apply ltb_true in Hw as Hw'. rewrite Hw'. now apply clamp_rot_wide.
Qed.

Lemma clamp_rot_examples :
    pipeline.clamp_rot 181 = -179 /\ pipeline.clamp_rot (-185) = 175 /\
    pipeline.clamp_rot 720 = 0.
Proof.
    splits.
    - rewrite (@clamp_rot_wraps 181 181).
      + destruct (Rlt_dec 181 0); lra.
      + apply fmod_360_small. lra.
      + rewrite Rabs_pos_eq; lra.
    - rewrite (@clamp_rot_wraps (-185) (-185)).
      + destruct (Rlt_dec (-185) 0); lra.
      + apply fmod_360_small. lra.
      + rewrite Rabs_left; lra.
    - rewrite clamp_rot_real. cbv zeta.
      rewrite (@fmod_360_pos 720 2) by lra.
      replace (720 - 360 * 2) with 0 by lra. rewrite Rabs_R0.
      destruct (RealD.ltb 180 (0 - 1 / 100)) eqn:E; [apply ltb_true in E; lra|].
      destruct (RealD.ltb 180 0) eqn:E1; [apply ltb_true in E1; lra|].
      destruct (RealD.ltb 0 (-180)) eqn:E2; [apply ltb_true in E2; lra|]. reflexivity.
Qed.
End RealFmod.

(** C3 (as amended): [clamp_value] leaves the three translation channels
    as they are and maps each rotation channel into the closed interval
    [-180, 180]; a rotation already in that interval is returned unchanged;
    181 goes to -179, -185 to 175 and 720 to 0 (over the reals and on
    binary64). *)
Theorem clamp_value_range :
  forall value : Pose R,
    let out := pipeline.clamp_value value in
    (c_tx out = c_tx value /\ c_ty out = c_ty value /\ c_tz out = c_tz value) /\
    (forall i, In i [Yaw; Pitch; Roll] ->
       (-180 <= at6 out i <= 180)%R /\
       ((-180 <= at6 value i <= 180)%R -> at6 out i = at6 value i)) /\
    (pipeline.clamp_rot 181%R = (-179)%R /\ pipeline.clamp_rot (-185)%R = 175%R /\
     pipeline.clamp_rot 720%R = 0%R) /\
    pipeline.clamp_value (Vec6 1 2 3 181 (-185) 720)%float
      = (Vec6 1 2 3 (-179) 175 0)%float.
Proof.
  intros value out. split; [repeat split|]. split.
  - intros i Hi. cbn in Hi.
    destruct Hi as [<-|[<-|[<-|[]]]]; cbn [at6 out c_yaw c_pitch c_roll pipeline.clamp_value];
      (split; [apply clamp_rot_range | apply clamp_rot_in_range]).
  - split; [exact clamp_rot_examples|]. vm_compute. reflexivity.
Qed.

(** C3, as stated, fails at the lower end: -180 is returned as -180, which
    is not inside (-180, 180]. *)
Lemma clamp_value_keeps_minus_180 :
  c_yaw (pipeline.clamp_value (Vec6 0 0 0 (-180) 0 0)%float) = (-180)%float /\
  PrimFloat.ltb (-180)%float
    (c_yaw (pipeline.clamp_value (Vec6 0 0 0 (-180) 0 0)%float)) = false.
Proof. split; vm_compute; reflexivity. Qed.

(* ===================================================================== *)
(** ** The interpolation of [reltrans], over exact reals *)
(* ===================================================================== *)

(** C2: in [apply_pipeline], while the interpolation flag is active, the
    quantity compared with 0.05 is three times the absolute value of the
    first component of (rotated translation minus accumulated position);
    it is the same for any two vectors that agree on their first
    components; and the flag is cleared exactly when it is below 0.05. *)
Theorem interpolation_residual :
  forall (cv : EulerConv R) (dt : R) (state : reltrans.reltrans_state)
         (value : Pose R) (disable : vec6_bool) (st : reltrans.t R),
    state <> reltrans.reltrans_disabled ->
    reltrans.cur_after_zone st (reltrans.tcomp_in_zone state value) = true ->
    let rel := reltrans.rotated_rel cv (reltrans.tcomp_in_zone state value) value disable in
    let alpha := (dt / (dt + 1 / 10))%R in
    let acc := vadd3 (vscale3 (reltrans.interp_pos st) (1 - alpha)%R)
                     (vscale3 rel alpha) in
    let residual := (3 * Rabs (e0 rel - e0 acc))%R in
    let st' := snd (reltrans.apply_pipeline cv dt state value disable st) in
    reltrans.interp_pos st' = acc /\
    (reltrans.cur st' = false <-> (residual < 5 / 100)%R) /\
    (forall rel2 acc2 : euler_t R,
       e0 rel2 = e0 rel -> e0 acc2 = e0 acc ->
       reltrans.delta_of (vsub3 rel2 acc2) = residual).
Proof.
  intros cv dt state value disable st Hmode Hcur rel alpha acc residual st'.
  assert (Est : st' = reltrans.Mk acc
                  (if RealD.ltb (reltrans.delta_of (vsub3 rel acc)) (5 / 100)%R
                   then false else true)
                  (reltrans.tcomp_in_zone state value)).
  { unfold st', reltrans.apply_pipeline.
    destruct state; [contradiction| |];
      rewrite Hcur; unfold reltrans.interpolate; reflexivity. }
  assert (Ed : forall rel2 acc2 : euler_t R,
             e0 rel2 = e0 rel -> e0 acc2 = e0 acc ->
             reltrans.delta_of (vsub3 rel2 acc2) = residual).
  { intros rel2 acc2 E1 E2. unfold reltrans.delta_of, residual, vsub3, vzip3.
    cbn [e0]. rewrite E1, E2.
    change (@fabs R real_arith) with Rabs. change (@dadd R real_arith) with Rplus.
    change (@dsub R real_arith) with Rminus. lra. }
  rewrite Est. cbn [reltrans.interp_pos reltrans.cur]. splits.
  - reflexivity.
  - rewrite (Ed rel acc eq_refl eq_refl). split.
    + intros E.
      destruct (RealD.ltb residual (5 / 100)) eqn:El;
        [now apply ltb_true in El|discriminate].
    + intros Hlt. apply ltb_true in Hlt. now rewrite Hlt.
  - exact Ed.
Qed.

Lemma interpolation_residual_witness :
  reltrans.reltrans_enabled <> reltrans.reltrans_disabled /\
  reltrans.cur_after_zone (reltrans.Mk (Vec3 0 0 0)%R true false)
    (reltrans.tcomp_in_zone reltrans.reltrans_enabled DemoR.some_pose) = true /\
  reltrans.interp_pos
    (snd (reltrans.apply_pipeline DemoR.yaw_conv (1 / 250)%R reltrans.reltrans_enabled
            DemoR.some_pose (Vec6 false false false false false false)
            (reltrans.Mk (Vec3 0 0 0)%R true false))) =
  vadd3 (vscale3 (Vec3 0 0 0)%R (1 - (1 / 250) / (1 / 250 + 1 / 10))%R)
        (vscale3 (reltrans.rotated_rel DemoR.yaw_conv true DemoR.some_pose
                    (Vec6 false false false false false false))
                 ((1 / 250) / (1 / 250 + 1 / 10))%R).
Proof.
  assert (H1 : reltrans.reltrans_enabled <> reltrans.reltrans_disabled) by discriminate.
  assert (H2 : reltrans.cur_after_zone (reltrans.Mk (Vec3 0 0 0)%R true false)
                 (reltrans.tcomp_in_zone reltrans.reltrans_enabled DemoR.some_pose) = true)
    by reflexivity.
  split; [exact H1|]. split; [exact H2|].
  exact (proj1 (@interpolation_residual DemoR.yaw_conv (1 / 250)%R
                  reltrans.reltrans_enabled DemoR.some_pose
                  (Vec6 false false false false false false)
                  (reltrans.Mk (Vec3 0 0 0)%R true false) H1 H2)).
Defined.

(* ===================================================================== *)
(** ** Centering, over exact reals *)
(* ===================================================================== *)

Section CenterFacts.
Import pipeline.
Local Open Scope R_scope.

Lemma dot3_zero_r (a : euler_t R) : dot3 a (Vec3 0 (- 0) (- 0)) = 0.
Proof. unfold dot3. cbn. lra. Qed.

(** Rotating the zero vector gives the zero vector. *)
Lemma rotate_zero (M : rmat R) :
    reltrans.rotate M (Vec3 0 0 0) (Vec3 false false false) = Vec3 0 0 0.
Proof.
    unfold reltrans.rotate, mat_vec. cbn [e0 e1 e2].
    change (dneg 0) with (- 0).
    rewrite !dot3_zero_r. change (dneg 0) with (- 0). f_equal; lra.
Qed.

Lemma yaw_conv_orthonormal e :
    mat_mul (euler_to_rmat DemoR.yaw_conv e)
            (transpose (euler_to_rmat DemoR.yaw_conv e)) = eye.
Proof.
    unfold mat_mul, transpose, col, dot3, eye. cbn.
    pose proof (sin2_cos2 (e0 e)) as Hsc. unfold Rsqr in Hsc.
    repeat f_equal; lra || nra.
Qed.
End CenterFacts.

(** C4: if [maybe_set_center_pose] runs with the centre flag set and
    [own_center_logic] false, [apply_center] applied to the same pose right
    after it returns the zero pose: three translations and three rotations
    equal to 0 (the exact-real reading of "approximately 0"), whatever the
    invert flags; this needs the Euler conversion to give orthonormal
    matrices and zero angles for the identity. *)
Theorem centering_then_apply_center :
  forall (cfg : pipeline.config R) (filter_loaded : bool) (value : Pose R)
         (st : pipeline.state R),
    (forall e, mat_mul (euler_to_rmat (pipeline.conv cfg) e)
                       (transpose (euler_to_rmat (pipeline.conv cfg) e)) = eye) ->
    rmat_to_euler (pipeline.conv cfg) eye = zero3 ->
    pipeline.get bits.f_center st = true ->
    pipeline.apply_center cfg
      (pipeline.maybe_set_center_pose cfg filter_loaded value false st) value
    = zero_pose.
Proof.
  intros cfg fl value st Horth Hid Hc.
  unfold pipeline.maybe_set_center_pose.
  set (st1 := pipeline.with_rotations _ _ st).
  assert (Hc1 : pipeline.get bits.f_center st1 = true) by exact Hc.
  rewrite Hc1.
  unfold pipeline.apply_center.
  set (st2 := if fl then pipeline.emit pipeline.FilterCenter st1 else st1).
  assert (E2 : pipeline.scaled_rotation st2 = pipeline.scaled_rotation st1 /\
               pipeline.real_rotation st2 = pipeline.real_rotation st1)
    by (unfold st2; destruct fl; split; reflexivity).
  destruct E2 as [Es Er].
  cbn [pipeline.with_center pipeline.emit pipeline.scaled_rotation pipeline.real_rotation
       pipeline.t_center pipeline.rotation pipeline.rot_center].
  rewrite Es, Er. unfold st1.
  cbn [pipeline.with_rotations pipeline.scaled_rotation pipeline.real_rotation
       pipeline.rotation pipeline.rot_center].
  rewrite Horth, Hid.
  assert (Ez : vsub3 (pose_pos value) (pose_pos value) = Vec3 0%R 0%R 0%R).
  { unfold vsub3, vzip3, pose_pos. cbn. f_equal; apply Rminus_diag. }
  rewrite Ez, rotate_zero.
  unfold zero_pose, tab6, zero3, scalev3, vmap3, pipeline.invert_if. cbn.
  f_equal; match goal with |- (if ?c then _ else _) = _ => destruct c end; lra.
Qed.

Lemma centering_then_apply_center_witness :
  rmat_to_euler (pipeline.conv DemoR.cfg0) eye = zero3 /\
  pipeline.get bits.f_center (pipeline.fresh (D := R)) = true /\
  pipeline.apply_center DemoR.cfg0
    (pipeline.maybe_set_center_pose DemoR.cfg0 true DemoR.some_pose false pipeline.fresh)
    DemoR.some_pose = zero_pose.
Proof.
  assert (H1 : rmat_to_euler (pipeline.conv DemoR.cfg0) eye = zero3) by reflexivity.
  assert (H2 : pipeline.get bits.f_center (pipeline.fresh (D := R)) = true) by reflexivity.
  split; [exact H1|]. split; [exact H2|].
  exact (@centering_then_apply_center DemoR.cfg0 true DemoR.some_pose pipeline.fresh
           yaw_conv_orthonormal H1 H2).
Defined.

(* ===================================================================== *)
(** ** Further properties of the flag word *)
(* ===================================================================== *)

(** X1: whatever other threads store while [set] or [negate] retries, and
    however often the weak exchange fails, the loop ends with bit F updated
    and every other bit as it was in the word the successful exchange
    replaced: no concurrent update of another flag is lost. *)
Theorem cas_retry_keeps_other_bits :
forall (sched : list bits.attempt) (F G : bits.flags) (v : bool) (w : Z),
  F <> G ->
  bits.get G (bits.set_sched sched (bits.mask F) v w) = bits.get G (seen sched w) /\
  bits.get F (bits.set_sched sched (bits.mask F) v w) = v /\
  bits.get G (bits.negate_sched sched (bits.mask F) w) = bits.get G (seen sched w) /\
  bits.get F (bits.negate_sched sched (bits.mask F) w) = negb (bits.get F (seen sched w)).
Proof.
intros sched F G v w HFG. unfold bits.set_sched, bits.negate_sched.
rewrite !cas_loop_seen.
change (bits.set_word (bits.mask F) v (seen sched w)) with (bits.set F v (seen sched w)).
change (bits.negate_word (bits.mask F) (seen sched w)) with (bits.negate F (seen sched w)).
rewrite get_set_same, get_negate_same.
rewrite (get_set_other v (seen sched w) HFG), (get_negate_other (seen sched w) HFG).
repeat split; reflexivity.
Qed.

Lemma cas_retry_keeps_other_bits_witness :
bits.f_zero <> bits.f_enabled_p /\
bits.get bits.f_enabled_p
  (bits.set_sched [bits.Store 3; bits.Spurious; bits.Store 1] (bits.mask bits.f_zero) true 7)
= false.
Proof.
split; [discriminate|].
pose proof (@cas_retry_keeps_other_bits [bits.Store 3; bits.Spurious; bits.Store 1]
              bits.f_zero bits.f_enabled_p true 7) as Hf.
destruct Hf as [Hf _]; [discriminate|].
rewrite Hf. reflexivity.
Defined.

(** X2: toggling a flag twice gives back every flag of the word. *)
Theorem negate_twice_restores_flags :
forall (F G : bits.flags) (w : Z),
  bits.get G (bits.negate F (bits.negate F w)) = bits.get G w.
Proof.
intros F G w.
assert (Hd : F = G \/ F <> G) by (destruct F, G; (left; reflexivity) || (right; discriminate)).
destruct Hd as [<-|Hne].
- rewrite !get_negate_same. apply negb_involutive.
- rewrite !(get_negate_other _ Hne). reflexivity.
Qed.

(* ===================================================================== *)
(** ** Further properties of one tick *)
(* ===================================================================== *)

Section TickMore.
Import bits pipeline Trace Tick More.
Context {D : Type} `{Arith D}.
Variable cfg : config D.
Variable io : tick_io D.

Lemma own_center_logic_eq (st : state D) :
  own_center_logic io st =
  pipeline.get f_center st && tracking_started st && tracker_center io.
Proof.
unfold own_center_logic, ask_own_center_logic.
destruct (pipeline.get f_center st && tracking_started st); reflexivity.
Qed.

Lemma worker_asked (st : state D) : worker_state (st_asked io st) = worker_state st.
Proof.
unfold st_asked, ask_own_center_logic.
destruct (pipeline.get f_center st && tracking_started st); reflexivity.
Qed.

Lemma worker_emit_nan (st : state D) :
  worker_state (emit_nan_check_msg st) = worker_state st.
Proof. unfold emit_nan_check_msg. destruct (nan_msg_emitted st); reflexivity. Qed.

Lemma frame_stored (tmp : Pose D) (st : state D) :
  center_frame (store_newpose tmp st) = center_frame st.
Proof. unfold store_newpose. destruct (xorb _ _); reflexivity. Qed.

Lemma frame_latched (st : state D) :
  center_frame (maybe_enable_center_on_tracking_started cfg st) = center_frame st.
Proof.
unfold maybe_enable_center_on_tracking_started.
destruct (some_channel_nonzero (newpose st)), (center_at_startup (s cfg)),
  (tracking_started st) eqn:Ets; cbn; rewrite ?Ets; reflexivity.
Qed.

Lemma frame_st_latched (st : state D) :
  center_frame (st_latched cfg io st) = center_frame st.
Proof.
unfold st_latched. rewrite frame_latched. unfold st_stored. rewrite frame_stored.
unfold st_asked, ask_own_center_logic.
destruct (pipeline.get f_center st && tracking_started st); reflexivity.
Qed.

(** What [maybe_set_center_pose] leaves in the centre frame. *)
Lemma frame_set_center fl (value : Pose D) own (st : state D) :
  center_frame (maybe_set_center_pose cfg fl value own st) =
  if pipeline.get f_center st then
    if own then (eye, eye, zero3)
    else (transpose (euler_to_rmat (conv cfg)
                       (scalev3 (c_div cfg) (scalev3 d2r (pose_rot value)))),
          transpose (euler_to_rmat (conv cfg) (scalev3 d2r (pose_rot value))),
          pose_pos value)
  else center_frame st.
Proof.
unfold maybe_set_center_pose, pipeline.get. cbn.
destruct (bits.get f_center (b st)); [|reflexivity].
destruct fl, own; reflexivity.
Qed.

Lemma frame_centered (st : state D) :
  center_frame (st_centered cfg io st) =
  if pipeline.get f_center (st_latched cfg io st) then
    if own_center_logic io st then (eye, eye, zero3)
    else (transpose (euler_to_rmat (conv cfg)
                       (scalev3 (c_div cfg) (scalev3 d2r (pose_rot (clamped cfg io st))))),
          transpose (euler_to_rmat (conv cfg) (scalev3 d2r (pose_rot (clamped cfg io st)))),
          pose_pos (clamped cfg io st))
  else center_frame st.
Proof.
unfold st_centered. rewrite frame_set_center, frame_st_latched. reflexivity.
Qed.

Lemma frame_checked (st : state D) :
  center_frame (st_checked cfg io st) =
  if nan_at_input io then center_frame st else center_frame (st_centered cfg io st).
Proof.
unfold st_checked.
assert (En : forall s0 : state D, center_frame (emit_nan_check_msg s0) = center_frame s0).
{ intros s0. unfold emit_nan_check_msg. destruct (nan_msg_emitted s0); reflexivity. }
assert (Em : center_frame (snd (mapped cfg io st)) = center_frame (st_centered cfg io st)).
{ destruct (mapped_state cfg io st) as (ta & r & E). rewrite E. reflexivity. }
destruct (nan_at_input io).
- rewrite En. unfold st_asked, ask_own_center_logic.
  destruct (pipeline.get f_center st && tracking_started st); reflexivity.
- destruct (nan_at_filter cfg io st); [apply En|].
  destruct (nan_at_output cfg io st); [rewrite En|]; exact Em.
Qed.

(** The end of the tick writes the flag word, the output snapshot and the
    trace only. *)
Lemma logic_after_checked (st : state D) :
  exists ta bw out raw_ tr,
    logic cfg io st =
    St bw (tracking_started (st_checked cfg io st)) (newpose (st_checked cfg io st))
       out raw_ (scaled_rotation (st_checked cfg io st))
       (real_rotation (st_checked cfg io st)) (t_center (st_checked cfg io st))
       (pipeline.rel (st_checked cfg io st)) ta
       (backlog_time (st_checked cfg io st)) (nan_msg_emitted (st_checked cfg io st)) tr.
Proof.
unfold logic. rewrite logic_body_run.
destruct (nan_detected cfg io st).
- unfold nan_fallback.
  destruct (map_axes_state cfg all_axes (raw_6dof (st_checked cfg io st))
              (st_checked cfg io st)) as [ta Eta].
  rewrite Eta. unfold finish, pipeline.set, pipeline.get.
  cbn [with_output emit with_b with_tracking_active b tracking_started newpose
       output_pose raw_6dof scaled_rotation real_rotation t_center pipeline.rel
       tracking_active backlog_time nan_msg_emitted trace].
  repeat eexists.
- unfold finish, pipeline.set, pipeline.get.
  cbn [with_output emit with_b with_tracking_active b tracking_started newpose
       output_pose raw_6dof scaled_rotation real_rotation t_center pipeline.rel
       tracking_active backlog_time nan_msg_emitted trace].
  exists (tracking_active (st_checked cfg io st)). repeat eexists.
Qed.

Lemma frame_logic (st : state D) :
  center_frame (logic cfg io st) =
  if nan_at_input io then center_frame st else center_frame (st_centered cfg io st).
Proof.
destruct (logic_after_checked st) as (ta & bw & out & raw_ & tr & E).
rewrite E, <- frame_checked. reflexivity.
Qed.

Lemma worker_logic_nan_input (st : state D) :
  nan_at_input io = true -> worker_state (logic cfg io st) = worker_state st.
Proof.
intros Hn. destruct (logic_after_checked st) as (ta & bw & out & raw_ & tr & E).
rewrite E. unfold st_checked. rewrite Hn.
change (worker_state (emit_nan_check_msg (st_asked io st)) = worker_state st).
now rewrite worker_emit_nan, worker_asked.
Qed.

Lemma logic_protocol_poses (st : state D) :
  count is_protocol_pose (trace (logic cfg io st)) =
  S (count is_protocol_pose (trace st)).
Proof.
destruct (logic_summary cfg io st) as (_ & _ & _ & _ & _ & _ & _ & Lt).
destruct (st_checked_summary cfg io st) as (_ & _ & _ & _ & _ & _ & _ & Kt).
cbv zeta in *. rewrite Lt, Kt.
rewrite count_cons, !count_app, count_nan_events, count_tracker_events.
destruct (nan_at_input io); rewrite ?count_center_events, ?count_nil;
  cbn [is_protocol_pose];
  destruct (nan_detected cfg io st && negb (nan_msg_emitted st)),
    (pipeline.get f_center st && tracking_started st);
  try destruct (pipeline.get f_center (st_latched cfg io st));
  try destruct (filter_loaded io); cbn; lia.
Qed.

Lemma raw_is_stored (st : state D) : raw cfg io st = newpose (st_stored io st).
Proof.
unfold raw, selected, selected_axis_value.
now rewrite get_selected_axis_value_defined.
Qed.
End TickMore.

(** X3: a tick changes no flag but the centre flag: the zero override and
    the two enable flags come out as they went in. *)
Theorem tick_keeps_other_flags :
forall (D : Type) (A : Arith D) (cfg : pipeline.config D)
       (io : pipeline.tick_io D) (st : pipeline.state D),
  pipeline.get bits.f_zero (pipeline.logic cfg io st) = pipeline.get bits.f_zero st /\
  pipeline.get bits.f_enabled_h (pipeline.logic cfg io st)
    = pipeline.get bits.f_enabled_h st /\
  pipeline.get bits.f_enabled_p (pipeline.logic cfg io st)
    = pipeline.get bits.f_enabled_p st.
Proof.
intros D A cfg io st. unfold pipeline.get. splits.
- now destruct (@flags_kept D A cfg io bits.f_zero st ltac:(discriminate)).
- now destruct (@flags_kept D A cfg io bits.f_enabled_h st ltac:(discriminate)).
- now destruct (@flags_kept D A cfg io bits.f_enabled_p st ltac:(discriminate)).
Qed.

(** X4: the pose a NaN tick publishes is the previous output pose put
    through the common end of the tick: replaced by zero under the zero
    override, the per-axis zero offsets added (again), the finish hook
    applied; that pose goes to the protocol and becomes the new output. *)
Theorem nan_tick_output_formula :
forall (D : Type) (A : Arith D) (cfg : pipeline.config D)
       (io : pipeline.tick_io D) (st : pipeline.state D),
  Tick.nan_detected cfg io st = true ->
  pipeline.output_pose (pipeline.logic cfg io st) =
    pipeline.ev_finished io
      (pipeline.apply_zero_pos cfg
         (if pipeline.get bits.f_zero st then zero_pose else pipeline.output_pose st)) /\
  hd_error (pipeline.trace (pipeline.logic cfg io st)) =
    Some (pipeline.ProtocolPose (pipeline.output_pose (pipeline.logic cfg io st))).
Proof.
intros D A cfg io st Hn.
destruct (logic_summary cfg io st) as (_ & _ & _ & _ & _ & Lo & _ & Lt).
cbv zeta in *. split.
- rewrite Lo, published_eq. unfold Tick.carried. now rewrite Hn.
- rewrite Lt, Lo. reflexivity.
Qed.

Lemma nan_tick_output_formula_witness :
Tick.nan_detected More.cfg_offset (Demo.sample Demo.broken)
  (pipeline.logic More.cfg_offset (Demo.sample Demo.at_rest) pipeline.fresh) = true /\
c_tx (pipeline.output_pose
        (pipeline.logic More.cfg_offset (Demo.sample Demo.at_rest) pipeline.fresh))
  = 1%float /\
c_tx (pipeline.output_pose
        (pipeline.logic More.cfg_offset (Demo.sample Demo.broken)
           (pipeline.logic More.cfg_offset (Demo.sample Demo.at_rest) pipeline.fresh)))
  = 2%float.
Proof.
assert (Hn : Tick.nan_detected More.cfg_offset (Demo.sample Demo.broken)
               (pipeline.logic More.cfg_offset (Demo.sample Demo.at_rest) pipeline.fresh)
             = true) by (vm_compute; reflexivity).
split; [exact Hn|]. split; [vm_compute; reflexivity|].
rewrite (proj1 (@nan_tick_output_formula float float_arith More.cfg_offset
                  (Demo.sample Demo.broken) _ Hn)).
vm_compute. reflexivity.
Defined.

(** X5: every tick, good or not, hands exactly one pose to the protocol,
    and it is the pose that [raw_and_mapped_pose] returns afterwards. *)
Theorem tick_publishes_one_pose :
forall (D : Type) (A : Arith D) (cfg : pipeline.config D)
       (io : pipeline.tick_io D) (st : pipeline.state D),
  Trace.count Trace.is_protocol_pose (pipeline.trace (pipeline.logic cfg io st)) =
    S (Trace.count Trace.is_protocol_pose (pipeline.trace st)) /\
  hd_error (pipeline.trace (pipeline.logic cfg io st)) =
    Some (pipeline.ProtocolPose
            (fst (pipeline.raw_and_mapped_pose (pipeline.logic cfg io st)))).
Proof.
intros D A cfg io st. split; [apply logic_protocol_poses|].
destruct (logic_summary cfg io st) as (_ & _ & _ & _ & _ & Lo & _ & Lt).
cbv zeta in *. unfold pipeline.raw_and_mapped_pose. cbn [fst]. now rewrite Lt, Lo.
Qed.

(** X6: a tick stores the tracker's sample (after the raw hook) exactly
    when the input check passes and the two enable flags agree, both on or
    both off; otherwise the stored sample stays. *)
Theorem sample_stored_when_flags_agree :
forall (D : Type) (A : Arith D) (cfg : pipeline.config D)
       (io : pipeline.tick_io D) (st : pipeline.state D),
  pipeline.newpose (pipeline.logic cfg io st) =
  if Tick.nan_at_input io then pipeline.newpose st
  else if Bool.eqb (pipeline.get bits.f_enabled_p st) (pipeline.get bits.f_enabled_h st)
       then pipeline.ev_raw io (pipeline.tracker_data io)
       else pipeline.newpose st.
Proof.
intros D A cfg io st. rewrite logic_newpose, newpose_stored.
now destruct (pipeline.get bits.f_enabled_p st), (pipeline.get bits.f_enabled_h st).
Qed.

(** X7: after a tick that passed all three checks the raw snapshot is the
    stored sample. *)
Theorem good_tick_raw_is_newpose :
forall (D : Type) (A : Arith D) (cfg : pipeline.config D)
       (io : pipeline.tick_io D) (st : pipeline.state D),
  Tick.nan_detected cfg io st = false ->
  pipeline.raw_6dof (pipeline.logic cfg io st) = pipeline.newpose (pipeline.logic cfg io st).
Proof.
intros D A cfg io st Hn.
destruct (logic_summary cfg io st) as (_ & _ & _ & _ & _ & _ & Lr & _). cbv zeta in Lr.
rewrite Lr, Hn, logic_newpose, raw_is_stored.
unfold Tick.nan_detected in Hn. now destruct (Tick.nan_at_input io).
Qed.

Lemma good_tick_raw_is_newpose_witness :
Tick.nan_detected Demo.cfg0 (Demo.sample (Demo.moved 5)) Demo.tracking = false /\
pipeline.raw_6dof (pipeline.logic Demo.cfg0 (Demo.sample (Demo.moved 5)) Demo.tracking)
  = pipeline.newpose (pipeline.logic Demo.cfg0 (Demo.sample (Demo.moved 5)) Demo.tracking).
Proof.
assert (Hn : Tick.nan_detected Demo.cfg0 (Demo.sample (Demo.moved 5)) Demo.tracking = false)
  by (vm_compute; reflexivity).
split; [exact Hn|].
exact (@good_tick_raw_is_newpose float float_arith Demo.cfg0
         (Demo.sample (Demo.moved 5)) Demo.tracking Hn).
Defined.

(** X8: a NaN or infinity in the tracker's sample reaches nothing the
    worker keeps: the stored sample, the tracking latch, both rotation
    frames, the centre translation and the state of [reltrans] are as
    before the tick, and neither the centre nor the filter's centre hook is
    touched. *)
Theorem nan_sample_reaches_nothing :
forall (D : Type) (A : Arith D) (cfg : pipeline.config D)
       (io : pipeline.tick_io D) (st : pipeline.state D),
  Tick.nan_at_input io = true ->
  More.worker_state (pipeline.logic cfg io st) = More.worker_state st /\
  Trace.count Trace.is_center_pose (pipeline.trace (pipeline.logic cfg io st)) =
    Trace.count Trace.is_center_pose (pipeline.trace st) /\
  Trace.count Trace.is_filter_center (pipeline.trace (pipeline.logic cfg io st)) =
    Trace.count Trace.is_filter_center (pipeline.trace st).
Proof.
intros D A cfg io st Hn. splits.
- now apply worker_logic_nan_input.
- rewrite logic_center_poses, Hn. cbn. lia.
- rewrite logic_filter_centers, Hn. cbn. lia.
Qed.

Lemma nan_sample_reaches_nothing_witness :
Tick.nan_at_input (Demo.sample Demo.broken) = true /\
More.worker_state (pipeline.logic Demo.cfg0 (Demo.sample Demo.broken) Demo.tracking)
  = More.worker_state Demo.tracking.
Proof.
assert (Hn : Tick.nan_at_input (Demo.sample Demo.broken) = true)
  by (vm_compute; reflexivity).
split; [exact Hn|].
exact (proj1 (@nan_sample_reaches_nothing float float_arith Demo.cfg0
                (Demo.sample Demo.broken) Demo.tracking Hn)).
Defined.

(** X9: the tracking latch never falls: once some stored sample was
    nonzero, [tracking_started] stays true through every later tick. *)
Theorem tracking_started_never_falls :
forall (D : Type) (A : Arith D) (cfg : pipeline.config D)
       (ios : list (pipeline.tick_io D)) (st : pipeline.state D),
  pipeline.tracking_started st = true ->
  pipeline.tracking_started (pipeline.ticks cfg ios st) = true.
Proof.
intros D A cfg ios. induction ios as [|io rest IH]; intros st Hts; cbn [pipeline.ticks].
- exact Hts.
- apply IH. rewrite logic_tracking_started, Hts. now destruct (Tick.nan_at_input io).
Qed.

Lemma tracking_started_never_falls_witness :
pipeline.tracking_started Demo.tracking = true /\
pipeline.tracking_started
  (pipeline.ticks Demo.cfg0 [Demo.sample Demo.at_rest; Demo.sample Demo.broken]
     Demo.tracking) = true.
Proof.
assert (Hs : pipeline.tracking_started Demo.tracking = true) by (vm_compute; reflexivity).
split; [exact Hs|].
exact (@tracking_started_never_falls float float_arith Demo.cfg0
         [Demo.sample Demo.at_rest; Demo.sample Demo.broken] Demo.tracking Hs).
Defined.

(** X10: over any sequence of ticks, good and bad in any order, the NaN
    diagnostic is emitted at most once, and never again once it has been
    emitted. *)
Theorem nan_message_at_most_once :
forall (D : Type) (A : Arith D) (cfg : pipeline.config D)
       (ios : list (pipeline.tick_io D)) (st : pipeline.state D),
  (Trace.count Trace.is_nan_msg (pipeline.trace (pipeline.ticks cfg ios st))
   <= Trace.count Trace.is_nan_msg (pipeline.trace st)
      + (if pipeline.nan_msg_emitted st then 0 else 1))%nat.
Proof.
intros D A cfg ios. induction ios as [|io rest IH]; intros st; cbn [pipeline.ticks].
- lia.
- specialize (IH (pipeline.logic cfg io st)).
  destruct (logic_nan_msgs cfg io st) as (Hc & He).
  rewrite Hc, He in IH.
  destruct (pipeline.nan_msg_emitted st), (Tick.nan_detected cfg io st);
    cbn in IH |- *; lia.
Qed.

(** X11: when a centering request is pending, tracking has started and
    the tracker centres on its own, the tick asks the tracker once and
    consumes the request.  If the sample passes the input check, the tick
    resets the centre frame to the identity (both centre matrices are the
    identity, the centre translation is zero); if the sample fails the
    input check, the centre frame stays as it was and no centre is
    assigned. *)
Theorem tracker_own_centering_resets_frame :
forall (D : Type) (A : Arith D) (cfg : pipeline.config D)
       (io : pipeline.tick_io D) (st : pipeline.state D),
  pipeline.get bits.f_center st = true ->
  pipeline.tracking_started st = true ->
  pipeline.tracker_center io = true ->
  Trace.count Trace.is_tracker_center (pipeline.trace (pipeline.logic cfg io st)) =
    S (Trace.count Trace.is_tracker_center (pipeline.trace st)) /\
  pipeline.get bits.f_center (pipeline.logic cfg io st) = false /\
  More.center_frame (pipeline.logic cfg io st) =
    (if Tick.nan_at_input io then More.center_frame st else (eye, eye, zero3)) /\
  Trace.count Trace.is_center_pose (pipeline.trace (pipeline.logic cfg io st)) =
    (Trace.count Trace.is_center_pose (pipeline.trace st)
     + (if Tick.nan_at_input io then 0 else 1))%nat.
Proof.
intros D A cfg io st Hc Hts Htc. splits.
- rewrite logic_tracker_centers, Hc, Hts. cbn. lia.
- apply logic_center_flag.
- rewrite frame_logic. destruct (Tick.nan_at_input io); [reflexivity|].
  rewrite frame_centered, center_at_latch, own_center_logic_eq.
  now rewrite Hc, Hts, Htc.
- rewrite logic_center_poses, center_at_latch, Hc.
  now destruct (Tick.nan_at_input io).
Qed.

Lemma tracker_own_centering_resets_frame_witness :
pipeline.get bits.f_center (pipeline.set_center Demo.tracking) = true /\
pipeline.tracking_started (pipeline.set_center Demo.tracking) = true /\
More.center_frame
  (pipeline.logic Demo.cfg0 (More.own_centering (Demo.moved 7))
     (pipeline.set_center Demo.tracking)) = (eye, eye, zero3) /\
More.center_frame
  (pipeline.logic Demo.cfg0 (More.own_centering Demo.broken)
     (pipeline.set_center Demo.tracking))
  = More.center_frame (pipeline.set_center Demo.tracking).
Proof.
assert (H1 : pipeline.get bits.f_center (pipeline.set_center Demo.tracking) = true)
  by (vm_compute; reflexivity).
assert (H2 : pipeline.tracking_started (pipeline.set_center Demo.tracking) = true)
  by (vm_compute; reflexivity).
split; [exact H1|]. split; [exact H2|]. split.
- exact (proj1 (proj2 (proj2
    (@tracker_own_centering_resets_frame float float_arith Demo.cfg0
       (More.own_centering (Demo.moved 7))
       (pipeline.set_center Demo.tracking) H1 H2 eq_refl)))).
- exact (proj1 (proj2 (proj2
    (@tracker_own_centering_resets_frame float float_arith Demo.cfg0
       (More.own_centering Demo.broken)
       (pipeline.set_center Demo.tracking) H1 H2 eq_refl)))).
Defined.

(** X12: between centering requests the reference frame is stable: once
    tracking has started and no request is pending, no sequence of ticks
    changes the centre matrices or the centre translation. *)
Theorem center_frame_stable_without_request :
forall (D : Type) (A : Arith D) (cfg : pipeline.config D)
       (ios : list (pipeline.tick_io D)) (st : pipeline.state D),
  pipeline.get bits.f_center st = false ->
  pipeline.tracking_started st = true ->
  More.center_frame (pipeline.ticks cfg ios st) = More.center_frame st.
Proof.
intros D A cfg ios. induction ios as [|io rest IH]; intros st Hc Hts; cbn [pipeline.ticks].
- reflexivity.
- rewrite IH.
  + rewrite frame_logic. destruct (Tick.nan_at_input io); [reflexivity|].
    rewrite frame_centered, center_at_latch, Hc, Hts. reflexivity.
  + apply logic_center_flag.
  + rewrite logic_tracking_started, Hts. now destruct (Tick.nan_at_input io).
Qed.

Lemma center_frame_stable_without_request_witness :
pipeline.get bits.f_center Demo.tracking = false /\
pipeline.tracking_started Demo.tracking = true /\
More.center_frame
  (pipeline.ticks Demo.cfg0 [Demo.sample (Demo.moved 9); Demo.sample Demo.broken]
     Demo.tracking) = More.center_frame Demo.tracking.
Proof.
assert (H1 : pipeline.get bits.f_center Demo.tracking = false) by (vm_compute; reflexivity).
assert (H2 : pipeline.tracking_started Demo.tracking = true) by (vm_compute; reflexivity).
split; [exact H1|]. split; [exact H2|].
exact (@center_frame_stable_without_request float float_arith Demo.cfg0
         [Demo.sample (Demo.moved 9); Demo.sample Demo.broken] Demo.tracking H1 H2).
Defined.

(* ===================================================================== *)
(** ** Further properties of [reltrans] *)
(* ===================================================================== *)

Section ReltransMore.
Import reltrans.
Context {D : Type} `{Arith D}.

(** [apply_pipeline] passes the three rotation channels through. *)
Lemma apply_pipeline_rotation (cv : EulerConv D) dt mode (value : Pose D)
    (disable : vec6_bool) (st : reltrans.t D) :
  c_yaw (fst (apply_pipeline cv dt mode value disable st)) = c_yaw value /\
  c_pitch (fst (apply_pipeline cv dt mode value disable st)) = c_pitch value /\
  c_roll (fst (apply_pipeline cv dt mode value disable st)) = c_roll value.
Proof.
unfold apply_pipeline. destruct mode; [repeat split| |];
  destruct (interpolate _ _ _ _) as [[r i] c]; repeat split.
Qed.
End ReltransMore.

(** X13: [apply_reltrans] returns 0 in every channel the axis selector
    marked disabled, and never alters a rotation channel that is not
    disabled: compensation only moves translations. *)
Theorem apply_reltrans_channels :
forall (D : Type) (A : Arith D) (cfg : pipeline.config D) (dt : D)
       (value : Pose D) (disabled : vec6_bool) (st : pipeline.state D),
  (forall k, at6 disabled k = true ->
     at6 (fst (pipeline.apply_reltrans cfg dt value disabled st)) k = d_of_Z 0) /\
  (forall k, In k [Yaw; Pitch; Roll] -> at6 disabled k = false ->
     at6 (fst (pipeline.apply_reltrans cfg dt value disabled st)) k = at6 value k).
Proof.
intros D A cfg dt value disabled st. unfold pipeline.apply_reltrans. cbn [fst].
split.
- intros k Hk. rewrite at6_tab6, Hk. reflexivity.
- intros k Hin Hk. rewrite at6_tab6, Hk.
  destruct (apply_pipeline_rotation (pipeline.conv cfg) dt
              (pipeline.reltrans_mode (pipeline.s cfg)) value
              (pipeline.reltrans_disable cfg) (pipeline.rel st)) as (Hy & Hp & Hr).
  cbn in Hin. destruct Hin as [<-|[<-|[<-|[]]]]; cbn [at6 c_yaw c_pitch c_roll];
    assumption.
Qed.

Section ReltransReal.
Import reltrans.
Local Open Scope R_scope.

Lemma dot3_real (a v : euler_t R) :
  dot3 a v = e0 a * e0 v + e1 a * e1 v + e2 a * e2 v.
Proof. unfold dot3. cbn. lra. Qed.

(** Rotating by the identity matrix returns the vector, whatever the
    mask. *)
Lemma rotate_eye (v : euler_t R) (disable : vec3_bool) : rotate eye v disable = v.
Proof.
unfold rotate, mat_vec. rewrite !dot3_real. cbn.
destruct v as [x y z], disable as [[|] [|] [|]]; cbn; f_equal; lra.
Qed.

Lemma rotated_rel_at_rest (cv : EulerConv R) in_zone_ (value : Pose R)
    (disable : vec6_bool) :
  euler_to_rmat cv (Vec3 0 0 0) = eye ->
  c_yaw value = 0 -> c_pitch value = 0 -> c_roll value = 0 ->
  rotated_rel cv in_zone_ value disable = pose_pos value.
Proof.
intros Hid Hy Hp Hr. unfold rotated_rel. destruct in_zone_; [|reflexivity].
rewrite Hy, Hp, Hr.
replace (Vec3 _ _ _ : vec3 R) with (Vec3 0 0 0 : vec3 R).
- rewrite Hid. apply rotate_eye.
- cbn. f_equal; ring.
Qed.

(** One interpolation step shrinks the distance to the target by the
    factor [RC / (dt + RC)]. *)
Lemma interpolate_contracts dt (rel acc : euler_t R) :
  0 < dt ->
  let q := (1 / 10) / (dt + 1 / 10) in
  let acc' := snd (fst (interpolate dt true rel acc)) in
  e0 rel - e0 acc' = q * (e0 rel - e0 acc) /\ 0 < q < 1.
Proof.
intros Hdt q acc'. split.
- unfold acc', interpolate, q. cbn. field. lra.
- unfold q. split.
  + apply Rdiv_lt_0_compat; lra.
  + apply (Rmult_lt_reg_r (dt + 1 / 10)); [lra|].
    unfold Rdiv. rewrite Rmult_assoc, Rinv_l by lra. lra.
Qed.
End ReltransReal.

(** X14: in either compensation mode, with yaw, pitch and roll at zero,
    no interpolation under way and the stored [in_zone] equal to what the
    zone test gives for this pose (true in mode [reltrans_enabled]),
    [apply_pipeline] returns the pose it was given, keeps the accumulated
    position on the translation, starts no interpolation and leaves
    [in_zone] as it was.  (Exact reals; the Euler conversion gives the
    identity matrix for zero angles.) *)
Theorem reltrans_at_rest_keeps_pose :
forall (cv : EulerConv R) (dt : R) (mode : reltrans.reltrans_state) (value : Pose R)
       (disable : vec6_bool) (st : reltrans.t R),
  euler_to_rmat cv (Vec3 0 0 0)%R = eye ->
  c_yaw value = 0%R -> c_pitch value = 0%R -> c_roll value = 0%R ->
  mode <> reltrans.reltrans_disabled ->
  reltrans.cur st = false ->
  reltrans.in_zone st = reltrans.tcomp_in_zone mode value ->
  fst (reltrans.apply_pipeline cv dt mode value disable st) = value /\
  reltrans.interp_pos (snd (reltrans.apply_pipeline cv dt mode value disable st))
    = pose_pos value /\
  reltrans.cur (snd (reltrans.apply_pipeline cv dt mode value disable st)) = false /\
  reltrans.in_zone (snd (reltrans.apply_pipeline cv dt mode value disable st))
    = reltrans.in_zone st.
Proof.
intros cv dt mode value disable st Hid Hy Hp Hr Hmode Hcur Hz.
unfold reltrans.apply_pipeline.
assert (Ec : reltrans.cur_after_zone st (reltrans.tcomp_in_zone mode value) = false).
{ unfold reltrans.cur_after_zone. rewrite Hcur, Hz, eqb_reflx. reflexivity. }
rewrite Ec, (@rotated_rel_at_rest cv _ value disable Hid Hy Hp Hr).
unfold reltrans.interpolate. rewrite <- Hz.
assert (Ev : Vec6 (e0 (pose_pos value)) (e1 (pose_pos value)) (e2 (pose_pos value))
               (c_yaw value) (c_pitch value) (c_roll value) = value)
  by (destruct value; reflexivity).
destruct mode; [contradiction|..]; cbn [fst snd reltrans.interp_pos reltrans.cur
  reltrans.in_zone]; rewrite Ev; splits; reflexivity.
Qed.

Lemma yaw_conv_at_rest : euler_to_rmat DemoR.yaw_conv (Vec3 0 0 0)%R = eye.
Proof. cbn. rewrite cos_0, sin_0, Ropp_0. reflexivity. Qed.

Lemma reltrans_at_rest_keeps_pose_witness :
euler_to_rmat DemoR.yaw_conv (Vec3 0 0 0)%R = eye /\
fst (reltrans.apply_pipeline DemoR.yaw_conv (1 / 250)%R reltrans.reltrans_enabled
       (Vec6 1 2 3 0 0 0)%R (Vec6 false false false false false false)
       (reltrans.Mk (Vec3 0 0 0)%R false true)) = (Vec6 1 2 3 0 0 0)%R.
Proof.
split; [exact yaw_conv_at_rest|].
exact (proj1 (@reltrans_at_rest_keeps_pose DemoR.yaw_conv (1 / 250)%R
                reltrans.reltrans_enabled
                (Vec6 1 2 3 0 0 0)%R (Vec6 false false false false false false)
                (reltrans.Mk (Vec3 0 0 0)%R false true)
                yaw_conv_at_rest eq_refl eq_refl eq_refl
                ltac:(discriminate) eq_refl eq_refl)).
Defined.

(** X15: with yaw, pitch and roll at zero the neck offset is zero, for
    every neck length, enabled or not.  (Exact reals; the Euler conversion
    gives the identity matrix for zero angles.) *)
Theorem neck_offset_zero_at_rest :
forall (cv : EulerConv R) (value : Pose R) (enable : bool) (nz : Z),
  euler_to_rmat cv (Vec3 0 0 0)%R = eye ->
  c_yaw value = 0%R -> c_pitch value = 0%R -> c_roll value = 0%R ->
  reltrans.apply_neck cv value enable nz = zero3.
Proof.
intros cv value enable nz Hid Hy Hp Hr. unfold reltrans.apply_neck.
destruct enable; [|reflexivity]. cbn [negb].
destruct (nz =? 0)%Z; [reflexivity|].
replace (vscale3 (pose_rot value) d2r) with (Vec3 0 0 0 : vec3 R)%R.
- rewrite Hid, rotate_eye. unfold zero3. cbn. f_equal. lra.
- unfold vscale3, vmap3, pose_rot. cbn. rewrite Hy, Hp, Hr. f_equal; ring.
Qed.

Lemma neck_offset_zero_at_rest_witness :
euler_to_rmat DemoR.yaw_conv (Vec3 0 0 0)%R = eye /\
reltrans.apply_neck DemoR.yaw_conv (Vec6 1 2 3 0 0 0)%R true 12 = zero3.
Proof.
split; [exact yaw_conv_at_rest|].
exact (@neck_offset_zero_at_rest DemoR.yaw_conv (Vec6 1 2 3 0 0 0)%R true 12%Z
         yaw_conv_at_rest eq_refl eq_refl eq_refl).
Defined.

Section InterpolateReal.
Import reltrans.
Local Open Scope R_scope.

Lemma delta_of_real (tmp : euler_t R) : delta_of tmp = 3 * Rabs (e0 tmp).
Proof.
unfold delta_of. change (@fabs R real_arith) with Rabs.
change (@dadd R real_arith) with Rplus. lra.
Qed.

Lemma e0_vsub3 (a c : euler_t R) : e0 (vsub3 a c) = e0 a - e0 c.
Proof. reflexivity. Qed.

Lemma interpolate_cur dt (rel acc : euler_t R) :
  snd (interpolate dt true rel acc) =
  negb (RealD.ltb (delta_of (vsub3 rel (snd (fst (interpolate dt true rel acc)))))
          (5 / 100)).
Proof.
unfold interpolate. cbn [fst snd].
match goal with |- (if ?c then _ else _) = negb ?d => change d with c; destruct c end;
  reflexivity.
Qed.
End InterpolateReal.

Section Convergence.
Import reltrans More.
Local Open Scope R_scope.
Variable cv : EulerConv R.
Variable dt : R.
Variable mode : reltrans_state.
Variable value : Pose R.
Variable disable : vec6_bool.
Hypothesis dt_pos : 0 < dt.
Hypothesis mode_on : mode <> reltrans_disabled.

Local Abbreviation q := ((1 / 10) / (dt + 1 / 10)).
Local Abbreviation zone := (tcomp_in_zone mode value).
Local Abbreviation target := (rotated_rel cv (tcomp_in_zone mode value) value disable).
Local Abbreviation after n st :=
  (repeat_pipeline cv dt mode value disable n st).

(** A call whose zone test agrees with the stored zone starts nothing. *)
Lemma step_enabled (st : reltrans.t R) :
  in_zone st = zone ->
  snd (apply_pipeline cv dt mode value disable st) =
  let r := interpolate dt (cur st) target (interp_pos st) in
  Mk (snd (fst r)) (snd r) zone.
Proof.
intros Hz.
assert (Ec : cur_after_zone st zone = cur st).
{ unfold cur_after_zone. rewrite Hz, eqb_reflx. now destruct (cur st). }
unfold apply_pipeline. rewrite Ec. cbv zeta.
destruct (interpolate dt (cur st) target (interp_pos st)) as [[r i] c].
destruct mode; [now contradiction mode_on|..]; reflexivity.
Qed.

(** After one call the stored zone is the one of the constant pose. *)
Lemma first_step_zone (st : reltrans.t R) :
  in_zone (snd (apply_pipeline cv dt mode value disable st)) = zone.
Proof.
unfold apply_pipeline. cbv zeta.
destruct (interpolate dt (cur_after_zone st zone) target (interp_pos st)) as [[r i] c].
destruct mode; [now contradiction mode_on|..]; reflexivity.
Qed.

Lemma repeat_pipeline_shift n (st : reltrans.t R) :
  after (S n) st = after n (snd (apply_pipeline cv dt mode value disable st)).
Proof.
induction n as [|n IH]; [reflexivity|].
change (after (S (S n)) st)
  with (snd (apply_pipeline cv dt mode value disable (after (S n) st))).
rewrite IH. reflexivity.
Qed.

Lemma after_invariant (st0 : reltrans.t R) n :
  in_zone st0 = zone ->
  in_zone (after n st0) = zone /\
  (cur (after n st0) = true ->
     e0 target - e0 (interp_pos (after n st0))
       = q ^ n * (e0 target - e0 (interp_pos st0)) /\
     (n <> 0%nat ->
      5 / 100 <= 3 * Rabs (q ^ n * (e0 target - e0 (interp_pos st0))))).
Proof.
intros Hz0. induction n as [|n IH].
- split; [exact Hz0|]. intros _. split; [cbn; lra|]. intros Hn; contradiction.
- destruct IH as [Hz IH]. cbn [repeat_pipeline].
  set (s := repeat_pipeline cv dt mode value disable n st0) in *.
  rewrite (step_enabled _ Hz). cbv zeta. cbn [in_zone cur interp_pos].
  split; [reflexivity|].
  destruct (cur s) eqn:Ecs.
  + destruct (IH eq_refl) as [Hd _].
    destruct (interpolate_contracts target (interp_pos s) dt_pos) as [Hc _].
    cbv zeta in Hc.
    intros Hcur.
    assert (Hr : e0 target - e0 (snd (fst (interpolate dt true target (interp_pos s))))
                 = q ^ S n * (e0 target - e0 (interp_pos st0))).
    { rewrite Hc, Hd. cbn [pow]. ring. }
    split; [exact Hr|]. intros _.
    rewrite interpolate_cur in Hcur. apply negb_true_iff, ltb_false in Hcur.
    rewrite delta_of_real, e0_vsub3, Hr in Hcur. exact Hcur.
  + unfold interpolate. cbn [fst snd]. intros Hcur. discriminate.
Qed.
End Convergence.

(** Once the stored zone is the zone of the constant pose, the residual
    shrinks geometrically and the interpolation ends. *)
Lemma interpolation_ends_in_zone (cv : EulerConv R) (dt : R)
    (mode : reltrans.reltrans_state) (value : Pose R) (disable : vec6_bool)
    (st0 : reltrans.t R) :
  (0 < dt)%R -> mode <> reltrans.reltrans_disabled ->
  reltrans.in_zone st0 = reltrans.tcomp_in_zone mode value ->
  exists N, forall n, (N <= n)%nat ->
    reltrans.cur (More.repeat_pipeline cv dt mode value disable n st0) = false.
Proof.
intros Hdt Hmode Hz.
set (q := ((1 / 10) / (dt + 1 / 10))%R).
set (r0 := (e0 (reltrans.rotated_rel cv (reltrans.tcomp_in_zone mode value)
                  value disable)
            - e0 (reltrans.interp_pos st0))%R).
assert (Hq : (0 < q < 1)%R).
{ now destruct (interpolate_contracts (Vec3 0 0 0)%R (Vec3 0 0 0)%R Hdt) as [_ Hq]. }
destruct (pow_lt_1_zero q) with (y := ((5 / 100) / (3 * (Rabs r0 + 1)))%R) as [N HN].
- rewrite Rabs_pos_eq; lra.
- pose proof (Rabs_pos r0). apply Rdiv_lt_0_compat; lra.
- exists (S N). intros n Hn.
  destruct (reltrans.cur (More.repeat_pipeline cv dt mode value disable n st0))
    eqn:Ec; [|reflexivity].
  exfalso.
  destruct (@after_invariant cv dt mode value disable Hdt Hmode st0 n Hz) as [_ Hinv].
  destruct (Hinv Ec) as [_ Hbig]. specialize (Hbig ltac:(lia)).
  fold q r0 in Hbig. rewrite Rabs_mult in Hbig.
  specialize (HN n ltac:(lia)).
  pose proof (Rabs_pos r0) as Hr0. pose proof (Rabs_pos (q ^ n)) as Hqn.
  assert (Hy : (Rabs (q ^ n) * (3 * (Rabs r0 + 1)) < 5 / 100)%R).
  { apply (Rmult_lt_compat_r (3 * (Rabs r0 + 1))) in HN; [|lra].
    unfold Rdiv in HN. rewrite Rmult_assoc, Rinv_l in HN by lra. lra. }
  nra.
Qed.

(** X16: with a constant input pose, a constant mode and a positive time
    step, whatever the mode and whatever the state at the start (an
    interpolation under way or one that the first call starts), the
    interpolation ends: after enough calls of [apply_pipeline] the flag
    [cur] is false, and it stays false.  (Exact reals: once the first call
    has stored the zone of the pose, each step multiplies the first-axis
    residual by [RC / (dt + RC)], which is below 1.) *)
Theorem interpolation_ends :
forall (cv : EulerConv R) (dt : R) (mode : reltrans.reltrans_state)
       (value : Pose R) (disable : vec6_bool) (st0 : reltrans.t R),
  (0 < dt)%R ->
  exists N, forall n, (N <= n)%nat ->
    reltrans.cur (More.repeat_pipeline cv dt mode value disable n st0) = false.
Proof.
intros cv dt mode value disable st0 Hdt.
assert (Hd : mode = reltrans.reltrans_disabled \/ mode <> reltrans.reltrans_disabled)
  by (destruct mode; [left; reflexivity | right; discriminate | right; discriminate]).
destruct Hd as [->|Hmode].
- exists 1%nat. intros [|n] Hn; [lia|]. reflexivity.
- destruct (@interpolation_ends_in_zone cv dt mode value disable
              (snd (reltrans.apply_pipeline cv dt mode value disable st0))
              Hdt Hmode (@first_step_zone cv dt mode value disable Hmode st0))
    as [N HN].
  exists (S N). intros [|n] Hn; [lia|].
  rewrite repeat_pipeline_shift. apply HN. lia.
Qed.

Lemma interpolation_ends_witness :
(0 < 1 / 250)%R /\
(exists N, forall n, (N <= n)%nat ->
  reltrans.cur
    (More.repeat_pipeline DemoR.yaw_conv (1 / 250)%R reltrans.reltrans_enabled
       DemoR.some_pose (Vec6 false false false false false false) n
       (reltrans.Mk (Vec3 0 0 0)%R false false)) = false) /\
(exists N, forall n, (N <= n)%nat ->
  reltrans.cur
    (More.repeat_pipeline DemoR.yaw_conv (1 / 250)%R reltrans.reltrans_non_center
       DemoR.some_pose (Vec6 false false false false false false) n
       (reltrans.Mk (Vec3 0 0 0)%R true true)) = false).
Proof.
assert (Hdt : (0 < 1 / 250)%R) by lra.
split; [exact Hdt|]. split.
- exact (@interpolation_ends DemoR.yaw_conv (1 / 250)%R reltrans.reltrans_enabled
           DemoR.some_pose (Vec6 false false false false false false)
           (reltrans.Mk (Vec3 0 0 0)%R false false) Hdt).
- exact (@interpolation_ends DemoR.yaw_conv (1 / 250)%R reltrans.reltrans_non_center
           DemoR.some_pose (Vec6 false false false false false false)
           (reltrans.Mk (Vec3 0 0 0)%R true true) Hdt).
Defined.

(* ===================================================================== *)
(** ** Further properties of the clamper, selector and mapper *)
(* ===================================================================== *)

(** X17: clamping twice is clamping once.  (Exact reals.) *)
Theorem clamp_value_idempotent :
forall value : Pose R,
  pipeline.clamp_value (pipeline.clamp_value value) = pipeline.clamp_value value.
Proof.
intros value. unfold pipeline.clamp_value. cbn [c_tx c_ty c_tz c_yaw c_pitch c_roll].
rewrite (clamp_rot_in_range (clamp_rot_range (c_yaw value))),
  (clamp_rot_in_range (clamp_rot_range (c_pitch value))),
  (clamp_rot_in_range (clamp_rot_range (c_roll value))).
reflexivity.
Qed.

Lemma selected_identity (D : Type) (A : Arith D) (cfg : pipeline.config D)
    (newpose_ : Pose D) :
  (forall i, pipeline.src (pipeline.opts (at6 (pipeline.m cfg) i)) = Z_of_axis i) ->
  pipeline.get_selected_axis_value cfg newpose_ =
  Some (newpose_, newpose_, tab6 (fun _ => false)).
Proof.
intros Hsrc. rewrite get_selected_axis_value_defined.
unfold tab6, pipeline.selected_disabled. rewrite !Hsrc. cbn.
destruct newpose_; reflexivity.
Qed.

(** X18: when every axis reads its own channel, the selector returns the
    raw pose itself and marks no channel disabled. *)
Theorem identity_mapping_selects_raw :
forall (D : Type) (A : Arith D) (cfg : pipeline.config D) (newpose_ : Pose D),
  (forall i, pipeline.src (pipeline.opts (at6 (pipeline.m cfg) i)) = Z_of_axis i) ->
  pipeline.get_selected_axis_value cfg newpose_ =
  Some (newpose_, newpose_, tab6 (fun _ => false)).
Proof. intros D A cfg newpose_ Hsrc. now apply selected_identity. Qed.

Lemma identity_mapping_selects_raw_witness :
(forall i, pipeline.src (pipeline.opts (at6 (pipeline.m Demo.cfg0) i)) = Z_of_axis i) /\
pipeline.get_selected_axis_value Demo.cfg0 (Demo.moved 4) =
  Some (Demo.moved 4, Demo.moved 4, tab6 (fun _ => false)).
Proof.
assert (Hs : forall i,
          pipeline.src (pipeline.opts (at6 (pipeline.m Demo.cfg0) i)) = Z_of_axis i)
  by (intros []; reflexivity).
split; [exact Hs|].
exact (@identity_mapping_selects_raw float float_arith Demo.cfg0 (Demo.moved 4) Hs).
Defined.

Lemma at6_upd6_other {A} (v : vec6 A) (i k : Axis) (a : A) :
  i <> k -> at6 (upd6 v i a) k = at6 v k.
Proof. intros Hik. destruct i, k; try reflexivity; contradiction. Qed.

Lemma at6_upd6_same {A} (v : vec6 A) (i : Axis) (a : A) : at6 (upd6 v i a) i = a.
Proof. destruct i; reflexivity. Qed.

(** X19: a mapping loop touches only the axes it is run on: every other
    channel of the pose, and the activity marks of every other axis'
    curves, come out unchanged. *)
Theorem map_axes_touches_listed_axes_only :
forall (D : Type) (A : Arith D) (cfg : pipeline.config D) (axes : list Axis)
       (value : Pose D) (st : pipeline.state D) (k : Axis),
  ~ In k axes ->
  at6 (fst (pipeline.map_axes cfg axes value st)) k = at6 value k /\
  at6 (pipeline.tracking_active (snd (pipeline.map_axes cfg axes value st))) k =
    at6 (pipeline.tracking_active st) k.
Proof.
intros D A cfg axes. induction axes as [|i rest IH]; intros value st k Hk.
- split; reflexivity.
- cbn [pipeline.map_axes]. unfold pipeline.map at 1 2. cbv zeta.
  assert (Hik : i <> k) by (intros ->; apply Hk; now left).
  assert (Hrest : ~ In k rest) by (intros Hin; apply Hk; now right).
  match goal with
  | |- context [pipeline.map_axes cfg rest ?v ?s] =>
      destruct (IH v s k Hrest) as [H1 H2]
  end.
  rewrite H1, H2. cbn [pipeline.tracking_active pipeline.with_tracking_active].
  now rewrite !at6_upd6_other.
Qed.

Lemma map_axes_touches_listed_axes_only_witness :
~ In TX [Yaw; Pitch; Roll] /\
at6 (fst (pipeline.map_axes Demo.cfg0 [Yaw; Pitch; Roll] (Demo.moved 4) pipeline.fresh)) TX
  = at6 (Demo.moved 4) TX.
Proof.
assert (Hn : ~ In TX [Yaw; Pitch; Roll])
  by (cbn; intros [E|[E|[E|[]]]]; discriminate).
split; [exact Hn|].
exact (proj1 (@map_axes_touches_listed_axes_only float float_arith Demo.cfg0
                [Yaw; Pitch; Roll] (Demo.moved 4) pipeline.fresh TX Hn)).
Defined.

(* ===================================================================== *)
(** ** Further properties of the scheduler *)
(* ===================================================================== *)

Section SchedulerMore.
Import pipeline Trace More.
Context {D : Type} `{Arith D}.
Variable cfg : config D.
Local Open Scope Z_scope.

Lemma run_iteration_backlog io elapsed_nsecs (st : state D) :
  backlog_time (run_iteration cfg io elapsed_nsecs st) =
  (if backlog_overflow (backlog_time st) then 0 else backlog_time st)
  + (elapsed_nsecs - const_sleep_ms).
Proof.
unfold run_iteration. rewrite logic_backlog.
destruct (backlog_overflow (backlog_time st));
  cbn [backlog_time with_backlog_time emit trace app];
  rewrite ?logic_backlog; reflexivity.
Qed.

Lemma run_iteration_trace io elapsed_nsecs (st : state D) :
  trace (run_iteration cfg io elapsed_nsecs st) =
  Sleep (sleep_time_ms (backlog_time (run_iteration cfg io elapsed_nsecs st)))
  :: (if backlog_overflow (backlog_time st)
      then [BacklogMsg (time_cast_ms (backlog_time st))] else [])
  ++ trace (logic cfg io st).
Proof.
rewrite run_iteration_backlog. unfold run_iteration. rewrite logic_backlog.
destruct (backlog_overflow (backlog_time st));
  cbn [backlog_time with_backlog_time emit trace app];
  rewrite ?logic_backlog; reflexivity.
Qed.

Lemma logic_trace_sleeps io (st : state D) :
  Forall sleep_in_bounds (trace st) ->
  Forall sleep_in_bounds (trace (logic cfg io st)) /\
  count is_sleep (trace (logic cfg io st)) = count is_sleep (trace st).
Proof.
intros Hst.
destruct (logic_summary cfg io st) as (_ & _ & _ & _ & _ & _ & _ & Lt).
destruct (st_checked_summary cfg io st) as (_ & _ & _ & _ & _ & _ & _ & Kt).
cbv zeta in *. rewrite Lt, Kt. split.
- constructor; [exact I|].
  rewrite !Forall_app. splits; try exact Hst.
  + unfold Tick.nan_events. destruct (_ && _); repeat constructor.
  + unfold Tick.center_events.
    destruct (Tick.nan_at_input io); [constructor|].
    destruct (pipeline.get _ _); [|constructor].
    destruct (filter_loaded io); repeat constructor.
  + unfold Tick.tracker_events. destruct (_ && _); repeat constructor.
- rewrite count_cons, !count_app, count_nan_events, count_tracker_events.
  destruct (Tick.nan_at_input io); rewrite ?count_center_events, ?count_nil;
    cbn [is_sleep];
    destruct (Tick.nan_detected cfg io st && negb (nan_msg_emitted st)),
      (pipeline.get bits.f_center st && tracking_started st);
    try destruct (pipeline.get bits.f_center (Tick.st_latched cfg io st));
    try destruct (filter_loaded io); cbn; lia.
Qed.

Lemma run_loop_sleeps its : forall st : state D,
  Forall sleep_in_bounds (trace st) ->
  Forall sleep_in_bounds (trace (run_loop cfg its st)) /\
  count is_sleep (trace (run_loop cfg its st)) =
    (count is_sleep (trace st) + length its)%nat.
Proof.
induction its as [|[io el] rest IH]; intros st Hst; cbn [run_loop length].
- split; [exact Hst | lia].
- destruct (@logic_trace_sleeps io st Hst) as [Hl Hc].
  destruct (IH (run_iteration cfg io el st)) as [IH1 IH2].
  + rewrite run_iteration_trace. constructor.
    * cbn [sleep_in_bounds]. apply sleep_time_ms_range.
    * apply Forall_app. split; [|exact Hl].
      destruct (backlog_overflow (backlog_time st)); repeat constructor.
  + split; [exact IH1|]. rewrite IH2, run_iteration_trace, count_cons, count_app, Hc.
    cbn [is_sleep]. destruct (backlog_overflow (backlog_time st)); cbn; lia.
Qed.

Lemma run_loop_protocol_poses its : forall st : state D,
  count is_protocol_pose (trace (run_loop cfg its st)) =
    (count is_protocol_pose (trace st) + length its)%nat.
Proof.
induction its as [|[io el] rest IH]; intros st; cbn [run_loop length]; [lia|].
rewrite IH, run_iteration_trace, count_cons, count_app, logic_protocol_poses.
cbn [is_protocol_pose]. destruct (backlog_overflow (backlog_time st)); cbn; lia.
Qed.
End SchedulerMore.

(** X20: the backlog an iteration carries over from earlier iterations
    never exceeds 3 seconds in magnitude: after every iteration the backlog
    is this iteration's excess plus at most 3 seconds either way. *)
Theorem carried_backlog_is_bounded :
forall (D : Type) (A : Arith D) (cfg : pipeline.config D)
       (io : pipeline.tick_io D) (elapsed_nsecs : Z) (st : pipeline.state D),
  (Z.abs (pipeline.backlog_time (pipeline.run_iteration cfg io elapsed_nsecs st)
          - (elapsed_nsecs - pipeline.ns_of_ms 4)) <= 3000000000)%Z.
Proof.
intros D A cfg io elapsed_nsecs st. rewrite run_iteration_backlog.
change pipeline.const_sleep_ms with (pipeline.ns_of_ms 4).
pose proof (backlog_overflow_abs (pipeline.backlog_time st)) as Ho.
destruct (pipeline.backlog_overflow (pipeline.backlog_time st)).
- lia.
- assert (~ (3000000000 < Z.abs (pipeline.backlog_time st))%Z)
    by (intros Hlt; apply Ho in Hlt; discriminate).
  lia.
Qed.

(** X21: the loop of [run] calls [sleep] once per iteration and every
    argument it passes is between 0 and 10 milliseconds. *)
Theorem run_loop_sleeps_once_per_iteration :
forall (D : Type) (A : Arith D) (cfg : pipeline.config D)
       (its : list (pipeline.tick_io D * Z)) (st : pipeline.state D),
  Forall More.sleep_in_bounds (pipeline.trace st) ->
  Forall More.sleep_in_bounds (pipeline.trace (pipeline.run_loop cfg its st)) /\
  Trace.count Trace.is_sleep (pipeline.trace (pipeline.run_loop cfg its st)) =
    (Trace.count Trace.is_sleep (pipeline.trace st) + length its)%nat.
Proof. intros D A cfg its st Hst. now apply run_loop_sleeps. Qed.

Lemma run_loop_sleeps_once_per_iteration_witness :
Forall More.sleep_in_bounds (pipeline.trace (pipeline.fresh (D := float))) /\
Trace.count Trace.is_sleep
  (pipeline.trace
     (pipeline.run_loop Demo.cfg0
        [(Demo.sample Demo.at_rest, 4500000%Z); (Demo.sample (Demo.moved 1), 9000000000%Z)]
        pipeline.fresh)) = 2%nat.
Proof.
assert (Hf : Forall More.sleep_in_bounds (pipeline.trace (pipeline.fresh (D := float))))
  by constructor.
split; [exact Hf|].
exact (proj2 (@run_loop_sleeps_once_per_iteration float float_arith Demo.cfg0
                [(Demo.sample Demo.at_rest, 4500000%Z);
                 (Demo.sample (Demo.moved 1), 9000000000%Z)]
                pipeline.fresh Hf)).
Defined.

(** X22: [run] hands the protocol one pose per iteration and then, on the
    way out, the zero pose; it leaves every curve marked inactive. *)
Theorem run_ends_with_zero_pose :
forall (D : Type) (A : Arith D) (cfg : pipeline.config D)
       (its : list (pipeline.tick_io D * Z)) (st : pipeline.state D),
  hd_error (pipeline.trace (pipeline.run cfg its st)) =
    Some (pipeline.ProtocolPose zero_pose) /\
  Trace.count Trace.is_protocol_pose (pipeline.trace (pipeline.run cfg its st)) =
    (Trace.count Trace.is_protocol_pose (pipeline.trace st) + length its + 1)%nat /\
  (forall i, at6 (pipeline.tracking_active (pipeline.run cfg its st)) i = (false, false)).
Proof.
intros D A cfg its st. unfold pipeline.run.
cbn [pipeline.trace pipeline.with_tracking_active pipeline.emit pipeline.tracking_active].
splits.
- reflexivity.
- rewrite count_cons, run_loop_protocol_poses. cbn. lia.
- intros i. destruct i; reflexivity.
Qed.

(* ===================================================================== *)
(** ** Pausing, the zero override, and the pipeline at rest *)
(* ===================================================================== *)

(** X23: pausing freezes the sample: if the two enable flags agreed,
    after [toggle_enabled] no sequence of ticks changes the stored sample,
    whatever the tracker delivers. *)
Theorem paused_tracking_freezes_sample :
forall (D : Type) (A : Arith D) (cfg : pipeline.config D)
       (ios : list (pipeline.tick_io D)) (st : pipeline.state D),
  pipeline.get bits.f_enabled_p st = pipeline.get bits.f_enabled_h st ->
  pipeline.newpose (pipeline.ticks cfg ios (pipeline.toggle_enabled st))
    = pipeline.newpose st.
Proof.
intros D A cfg ios st Hagree.
assert (Hgen : forall (l : list (pipeline.tick_io D)) (s0 : pipeline.state D),
          pipeline.get bits.f_enabled_p s0 = negb (pipeline.get bits.f_enabled_h s0) ->
          pipeline.newpose (pipeline.ticks cfg l s0) = pipeline.newpose s0).
{ induction l as [|io rest IH]; intros s0 Hs0; cbn [pipeline.ticks]; [reflexivity|].
  rewrite IH.
  - rewrite logic_newpose, newpose_stored, Hs0.
    now destruct (Tick.nan_at_input io), (pipeline.get bits.f_enabled_h s0).
  - unfold pipeline.get in *.
    destruct (@flags_kept D A cfg io bits.f_enabled_p s0 ltac:(discriminate)) as [_ Ep].
    destruct (@flags_kept D A cfg io bits.f_enabled_h s0 ltac:(discriminate)) as [_ Eh].
    now rewrite Ep, Eh. }
rewrite Hgen.
- reflexivity.
- unfold pipeline.toggle_enabled, pipeline.negate, pipeline.get in *. cbn [pipeline.b pipeline.with_b].
  rewrite get_negate_same, (@get_negate_other bits.f_enabled_p bits.f_enabled_h) by discriminate.
  now rewrite Hagree.
Qed.

Lemma paused_tracking_freezes_sample_witness :
pipeline.get bits.f_enabled_p Demo.tracking = pipeline.get bits.f_enabled_h Demo.tracking /\
pipeline.newpose
  (pipeline.ticks Demo.cfg0 [Demo.sample (Demo.moved 8); Demo.sample Demo.at_rest]
     (pipeline.toggle_enabled Demo.tracking)) = pipeline.newpose Demo.tracking.
Proof.
assert (Ha : pipeline.get bits.f_enabled_p Demo.tracking
             = pipeline.get bits.f_enabled_h Demo.tracking) by (vm_compute; reflexivity).
split; [exact Ha|].
exact (@paused_tracking_freezes_sample float float_arith Demo.cfg0
         [Demo.sample (Demo.moved 8); Demo.sample Demo.at_rest] Demo.tracking Ha).
Defined.

(** X24: under the zero override a tick publishes the zero pose with the
    zero offsets added and the finish hook applied, whatever the tracker
    delivered and whether or not a check failed. *)
Theorem zero_override_publishes_offsets :
forall (D : Type) (A : Arith D) (cfg : pipeline.config D)
       (io : pipeline.tick_io D) (st : pipeline.state D),
  pipeline.get bits.f_zero st = true ->
  pipeline.output_pose (pipeline.logic cfg io st) =
    pipeline.ev_finished io (pipeline.apply_zero_pos cfg zero_pose).
Proof.
intros D A cfg io st Hz.
destruct (logic_summary cfg io st) as (_ & _ & _ & _ & _ & Lo & _).
cbv zeta in Lo. now rewrite Lo, published_eq, Hz.
Qed.

Lemma zero_override_publishes_offsets_witness :
pipeline.get bits.f_zero (pipeline.set_zero true Demo.tracking) = true /\
pipeline.output_pose
  (pipeline.logic More.cfg_offset (Demo.sample (Demo.moved 8))
     (pipeline.set_zero true Demo.tracking)) = Demo.moved 1.
Proof.
assert (Hz : pipeline.get bits.f_zero (pipeline.set_zero true Demo.tracking) = true)
  by (vm_compute; reflexivity).
split; [exact Hz|].
rewrite (@zero_override_publishes_offsets float float_arith More.cfg_offset
           (Demo.sample (Demo.moved 8)) (pipeline.set_zero true Demo.tracking) Hz).
vm_compute. reflexivity.
Defined.

Section AtRest.
Import bits reltrans pipeline Tick.
Local Open Scope R_scope.
Variable cfg : config R.
Variable io : tick_io R.

Hypothesis conv_rest : euler_to_rmat (conv cfg) (Vec3 0 0 0) = eye.
Hypothesis conv_eye : rmat_to_euler (conv cfg) eye = zero3.
Hypothesis src_own : forall i, src (opts (at6 (m cfg) i)) = Z_of_axis i.
Hypothesis no_offset : forall i, zero (opts (at6 (m cfg) i)) = 0.
Hypothesis main_id : forall i x, spline_main (at6 (m cfg) i) x = x.
Hypothesis alt_id : forall i x, spline_alt (at6 (m cfg) i) x = x.
Hypothesis mode_off : reltrans_mode (s cfg) = reltrans_disabled.
Hypothesis neck_off : neck_enable (s cfg) = false.
Hypothesis no_filter : pFilter io = None.
Hypothesis raw_id : forall p, ev_raw io p = p.
Hypothesis before_filter_id : forall p, ev_before_filter io p = p.
Hypothesis before_mapping_id : forall p, ev_before_mapping io p = p.
Hypothesis finished_id : forall p, ev_finished io p = p.
Hypothesis sample_rest : tracker_data io = zero_pose.

Lemma is_nan_real (p : Pose R) : is_nan p = false.
Proof. reflexivity. Qed.

Lemma nan_detected_real (st : state R) : nan_detected cfg io st = false.
Proof.
unfold nan_detected, nan_at_input, nan_at_filter, nan_at_output.
now rewrite !is_nan_real.
Qed.

Lemma zero_pose_silent : some_channel_nonzero (zero_pose : Pose R) = false.
Proof.
unfold some_channel_nonzero, all_axes, dneb. cbn [existsb at6 zero_pose tab6 c_tx c_ty c_tz c_yaw c_pitch c_roll].
change (@fabs R real_arith) with Rabs. change (@deqb R real_arith) with RealD.eqb.
change (@d_of_Z R real_arith 0) with 0. rewrite Rabs_R0.
unfold RealD.eqb. destruct (Req_dec_T 0 0); [reflexivity|contradiction].
Qed.

Lemma clamp_zero_pose : clamp_value (zero_pose : Pose R) = zero_pose.
Proof.
unfold clamp_value, zero_pose, tab6. cbn [c_tx c_ty c_tz c_yaw c_pitch c_roll].
change (@d_of_Z R real_arith 0) with 0.
rewrite (@clamp_rot_in_range 0) by lra. reflexivity.
Qed.

Lemma upd6_same {A} (v : vec6 A) (i : Axis) : upd6 v i (at6 v i) = v.
Proof. destruct v, i; reflexivity. Qed.

(** Identity curves leave the mapped channels as they are. *)
Lemma map_axes_identity axes : forall (value : Pose R) (st : state R),
  fst (map_axes cfg axes value st) = value.
Proof.
induction axes as [|i rest IH]; intros value st; cbn [map_axes]; [reflexivity|].
unfold map at 1. cbv zeta. rewrite IH.
destruct (_ && _); rewrite ?alt_id, ?main_id; apply upd6_same.
Qed.

Lemma apply_reltrans_off (value : Pose R) (st : state R) :
  fst (apply_reltrans cfg (interp_dt io) value (tab6 (fun _ => false)) st) = value.
Proof.
unfold apply_reltrans. rewrite mode_off, neck_off. cbn [fst].
unfold apply_neck, apply_pipeline. cbn [negb fst zero3 e0 e1 e2 c_tx c_ty c_tz c_yaw c_pitch c_roll].
unfold tab6. cbn [at6 c_tx c_ty c_tz c_yaw c_pitch c_roll].
change (@d_of_Z R real_arith 0) with 0. change (@dadd R real_arith) with Rplus.
destruct value as [v0 v1 v2 v3 v4 v5]; cbn [c_tx c_ty c_tz c_yaw c_pitch c_roll]. f_equal; lra.
Qed.

Lemma apply_zero_pos_none (value : Pose R) : apply_zero_pos cfg value = value.
Proof.
unfold apply_zero_pos, tab6. rewrite !no_offset.
change (@dadd R real_arith) with Rplus. change (@dmul R real_arith) with Rmult.
destruct value as [v0 v1 v2 v3 v4 v5]; cbn [at6 c_tx c_ty c_tz c_yaw c_pitch c_roll]. f_equal; lra.
Qed.

Lemma mat_mul_eye_eye : mat_mul (eye : rmat R) (transpose eye) = eye.
Proof.
unfold mat_mul, transpose, col, dot3, eye. cbn.
change (@d_of_Z R real_arith 0) with 0. change (@d_of_Z R real_arith 1) with 1.
repeat f_equal; lra.
Qed.

Lemma selected_at_rest (p : Pose R) :
  selected_axis_value cfg p = (p, p, tab6 (fun _ => false)).
Proof. unfold selected_axis_value. now rewrite (@selected_identity R real_arith cfg p src_own). Qed.

Lemma stored_at_rest : st_stored io fresh = with_newpose zero_pose fresh.
Proof.
unfold st_stored, st_asked, ask_own_center_logic, store_newpose.
rewrite raw_id, sample_rest. reflexivity.
Qed.

Lemma latched_at_rest : st_latched cfg io fresh = with_newpose zero_pose fresh.
Proof.
unfold st_latched. rewrite stored_at_rest.
unfold maybe_enable_center_on_tracking_started.
cbn [tracking_started with_newpose newpose fresh negb].
rewrite zero_pose_silent. reflexivity.
Qed.

Lemma clamped_at_rest : clamped cfg io fresh = zero_pose.
Proof.
unfold clamped, selected. rewrite stored_at_rest. cbn [newpose with_newpose].
rewrite selected_at_rest. cbn [fst snd]. apply clamp_zero_pose.
Qed.

Lemma scaled_angles_at_rest :
  scalev3 (c_div cfg) (scalev3 d2r (pose_rot (zero_pose : Pose R))) = Vec3 0 0 0 /\
  scalev3 d2r (pose_rot (zero_pose : Pose R)) = Vec3 0 0 0.
Proof.
unfold scalev3, vmap3, pose_rot, zero_pose, tab6. cbn [e0 e1 e2 c_yaw c_pitch c_roll].
change (@d_of_Z R real_arith 0) with 0. change (@dmul R real_arith) with Rmult.
split; f_equal; ring.
Qed.

Lemma filtered_at_rest : filtered cfg io fresh = zero_pose.
Proof.
unfold filtered. rewrite no_filter, before_filter_id. cbn [maybe_apply_filter].
unfold st_centered. rewrite latched_at_rest, clamped_at_rest.
assert (Eo : own_center_logic io fresh = false) by reflexivity.
rewrite Eo. unfold maybe_set_center_pose.
destruct scaled_angles_at_rest as [Es Er]. rewrite Es, Er, conv_rest.
assert (Ec : pipeline.get f_center
               (with_rotations eye eye (with_newpose (zero_pose : Pose R) fresh)) = true)
  by reflexivity.
rewrite Ec. unfold apply_center.
destruct (filter_loaded io);
  cbn [with_center emit with_rotations with_newpose scaled_rotation real_rotation
       t_center rotation rot_center];
  rewrite mat_mul_eye_eye, conv_eye;
  (assert (Ez : vsub3 (pose_pos (zero_pose : Pose R)) (pose_pos zero_pose) = Vec3 0 0 0)
     by (unfold vsub3, vzip3, pose_pos, zero_pose, tab6; cbn; f_equal; lra));
  rewrite Ez, rotate_zero;
  unfold zero_pose, tab6, zero3, scalev3, vmap3, invert_if; cbn;
  f_equal; match goal with |- (if ?c then _ else _) = _ => destruct c end; lra.
Qed.

Lemma mapped_at_rest : fst (mapped cfg io fresh) = zero_pose.
Proof.
unfold mapped. rewrite before_mapping_id, filtered_at_rest.
assert (Ed : snd (selected cfg io fresh) = tab6 (fun _ => false)).
{ unfold selected. now rewrite selected_at_rest. }
rewrite Ed.
pose proof (map_axes_identity [Yaw; Pitch; Roll] zero_pose (st_centered cfg io fresh)) as E1.
destruct (map_axes cfg [Yaw; Pitch; Roll] zero_pose (st_centered cfg io fresh)) as [v1 s1].
cbn [fst] in E1. subst v1.
pose proof (apply_reltrans_off zero_pose s1) as E2.
destruct (apply_reltrans cfg (interp_dt io) zero_pose (tab6 (fun _ => false)) s1)
  as [v2 s2].
cbn [fst] in E2. subst v2. apply map_axes_identity.
Qed.

Lemma logic_at_rest :
  output_pose (logic cfg io fresh) = zero_pose /\
  raw_6dof (logic cfg io fresh) = zero_pose.
Proof.
destruct (logic_summary cfg io fresh) as (_ & _ & _ & _ & _ & Lo & Lr & _).
cbv zeta in *. rewrite Lo, Lr, published_eq, finished_id, apply_zero_pos_none.
unfold carried. rewrite nan_detected_real.
assert (Ez : pipeline.get f_zero (fresh (D := R)) = false) by reflexivity.
rewrite Ez, mapped_at_rest. split; [reflexivity|].
rewrite raw_is_stored, stored_at_rest. reflexivity.
Qed.
End AtRest.

(** X25: end to end at rest: a freshly built pipeline with every axis
    reading its own channel, identity curves, no zero offsets, no filter,
    idle hooks and [reltrans] off, fed the all-zero sample, publishes the
    all-zero pose and stores the all-zero raw snapshot.  (Exact reals; the
    Euler conversions map zero angles to the identity matrix and back.) *)
Theorem rest_sample_maps_to_zero :
forall (cfg : pipeline.config R) (io : pipeline.tick_io R),
  euler_to_rmat (pipeline.conv cfg) (Vec3 0 0 0)%R = eye ->
  rmat_to_euler (pipeline.conv cfg) eye = zero3 ->
  (forall i, pipeline.src (pipeline.opts (at6 (pipeline.m cfg) i)) = Z_of_axis i) ->
  (forall i, pipeline.zero (pipeline.opts (at6 (pipeline.m cfg) i)) = 0%R) ->
  (forall i x, pipeline.spline_main (at6 (pipeline.m cfg) i) x = x) ->
  (forall i x, pipeline.spline_alt (at6 (pipeline.m cfg) i) x = x) ->
  pipeline.reltrans_mode (pipeline.s cfg) = reltrans.reltrans_disabled ->
  pipeline.neck_enable (pipeline.s cfg) = false ->
  pipeline.pFilter io = None ->
  (forall p, pipeline.ev_raw io p = p) ->
  (forall p, pipeline.ev_before_filter io p = p) ->
  (forall p, pipeline.ev_before_mapping io p = p) ->
  (forall p, pipeline.ev_finished io p = p) ->
  pipeline.tracker_data io = zero_pose ->
  pipeline.output_pose (pipeline.logic cfg io pipeline.fresh) = zero_pose /\
  pipeline.raw_6dof (pipeline.logic cfg io pipeline.fresh) = zero_pose.
Proof. intros. now apply logic_at_rest. Qed.

Lemma rest_sample_maps_to_zero_witness :
pipeline.output_pose (pipeline.logic DemoR.cfg0 More.rest_tick pipeline.fresh) = zero_pose /\
pipeline.raw_6dof (pipeline.logic DemoR.cfg0 More.rest_tick pipeline.fresh) = zero_pose.
Proof.
apply (@rest_sample_maps_to_zero DemoR.cfg0 More.rest_tick).
- exact yaw_conv_at_rest.
- reflexivity.
- intros i; destruct i; reflexivity.
- intros i; destruct i; reflexivity.
- intros i x; destruct i; reflexivity.
- intros i x; destruct i; reflexivity.
- reflexivity.
- reflexivity.
- reflexivity.
- intros p; reflexivity.
- intros p; reflexivity.
- intros p; reflexivity.
- intros p; reflexivity.
- reflexivity.
Defined.
